(** * AgriAI: yield advisor, profit dashboard and location resolver

    A shallow embedding of the decision logic of
    - [yield_prediction.py] (class [YieldAdvisorLLM]),
    - [profit_dashboard.py] ([render_profit_dashboard_tab]),
    - [final.py] ([get_location_from_ip], [geocode_location]),
    and the properties the specification states about them.

    Conventions.
    - Python [float] is IEEE binary64: [PrimFloat.float], with the
      kernel's own arithmetic.
    - Python [str] is [string] where the text handled is ASCII: the
      crop names and the model's answers, with [str.lower], [str.strip]
      and the regular expression classes given on the ASCII range. The
      location input, which [str.isdigit] and [len] read by character,
      is a sequence of code points.
    - A Python [dict] used as a table is a [gmap]; a [dict] that is built
      and handed to the user interface keeps its insertion order and is an
      association list.
    - The language model, the geocoder and the HTTP client are oracles
      carried by the world; everything the code does to the session or
      to the page is recorded in the world's trace. *)

From Stdlib Require Import Floats ZArith Ascii String.
From stdpp Require Import gmap strings list pretty.

Local Open Scope string_scope.
Set Warnings "-inexact-float,-register-all".

(** ** Results of computations that may raise *)

(** [Err msg] is a raised exception, [msg] being [str(e)]. *)
Inductive result (A : Type) : Type :=
| Ok (a : A)
| Err (msg : string).
Arguments Ok {A} a.
Arguments Err {A} msg.

Definition result_bind {A B} (r : result A) (k : A -> result B) : result B :=
  match r with
  | Ok a => k a
  | Err msg => Err msg
  end.

(** ** Python [str] methods *)

Module Py.

(** [str.isspace] on one ASCII character: TAB, LF, VT, FF, CR,
    FS, GS, RS, US and the space. *)
Definition is_space (c : ascii) : bool :=
  let n := nat_of_ascii c in
  (Nat.leb 9 n && Nat.leb n 13) || (Nat.leb 28 n && Nat.leb n 32).

Definition is_digit (c : ascii) : bool :=
  let n := nat_of_ascii c in Nat.leb 48 n && Nat.leb n 57.

Definition is_upper (c : ascii) : bool :=
  let n := nat_of_ascii c in Nat.leb 65 n && Nat.leb n 90.

Definition lower_char (c : ascii) : ascii :=
  if is_upper c then ascii_of_nat (nat_of_ascii c + 32) else c.

(** [s.lower()] *)
Fixpoint lower (s : string) : string :=
  match s with
  | EmptyString => EmptyString
  | String c s' => String (lower_char c) (lower s')
  end.

(** [s.lstrip()] *)
Fixpoint lstrip (s : string) : string :=
  match s with
  | EmptyString => EmptyString
  | String c s' => if is_space c then lstrip s' else s
  end.

Definition is_empty (s : string) : bool :=
  match s with EmptyString => true | String _ _ => false end.

(** [s.rstrip()]: a character is dropped when it is white space and
    nothing is kept to its right. *)
Fixpoint rstrip (s : string) : string :=
  match s with
  | EmptyString => EmptyString
  | String c s' =>
      let r := rstrip s' in
      if is_space c && is_empty r then EmptyString else String c r
  end.

(** [s.strip()] *)
Definition strip (s : string) : string := rstrip (lstrip s).

(** [s.startswith(p)] *)
Definition startswith (p s : string) : bool := String.prefix p s.

(** [s.split(sep)] for a one-character separator: never empty, the
    empty string splits into one empty field. *)
Fixpoint split (sep : ascii) (s : string) : list string :=
  match s with
  | EmptyString => [EmptyString]
  | String c s' =>
      if Ascii.eqb c sep then EmptyString :: split sep s'
      else match split sep s' with
           | l :: ls => String c l :: ls
           | [] => [String c EmptyString]
           end
  end.

(** [s.replace(old, new)] for a non-empty [old]: occurrences are found
    from the left and do not overlap. [skip] counts the characters of
    the occurrence just replaced that are still to be passed over. *)
Fixpoint replace_from (old new : string) (skip : nat) (s : string) : string :=
  match s with
  | EmptyString => EmptyString
  | String c s' =>
      match skip with
      | S k => replace_from old new k s'
      | O =>
          if String.prefix old s
          then new ++ replace_from old new (String.length old - 1) s'
          else String c (replace_from old new 0 s')
      end
  end.

Definition replace (old new s : string) : string := replace_from old new 0 s.



(** The longest prefix of [s] whose characters satisfy [p], and what
    follows it. *)
Fixpoint span (p : ascii -> bool) (s : string) : string * string :=
  match s with
  | EmptyString => (EmptyString, EmptyString)
  | String c s' =>
      if p c then let '(a, b) := span p s' in (String c a, b)
      else (EmptyString, s)
  end.

Definition newline : ascii := ascii_of_nat 10.

End Py.


(** ** Computations over a world *)

(** A computation reads and updates the world [W] and either returns a
    value or raises. The world reached is kept in both cases: what was
    done before an exception stays done. *)
Definition M (W A : Type) : Type := W -> result A * W.

Definition ret {W A} (a : A) : M W A := fun w => (Ok a, w).

Definition bind {W A B} (m : M W A) (k : A -> M W B) : M W B :=
  fun w => match m w with
           | (Ok a, w') => k a w'
           | (Err msg, w') => (Err msg, w')
           end.

(** [try: m except Exception as e: h(str(e))] *)
Definition try_except {W A} (m : M W A) (h : string -> M W A) : M W A :=
  fun w => match m w with
           | (Ok a, w') => (Ok a, w')
           | (Err msg, w') => h msg w'
           end.

(** A pure step that may raise. *)
Definition lift {W A} (r : result A) : M W A := fun w => (r, w).

Declare Scope comp_scope.
Delimit Scope comp_scope with comp.
Notation "'let*' x ':=' m 'in' k" := (bind m (fun x => k))
  (at level 10, x name, m at level 100, k at level 200) : comp_scope.
Notation "m ';;;' k" := (bind m (fun _ => k))
  (at level 100, k at level 200, right associativity) : comp_scope.

(** ** The yield advisor ([yield_prediction.py]) *)

Module Yield.

Local Open Scope comp_scope.

(** Generation parameters of one model invocation. *)
Record sampling : Type := {
  max_tokens : Z;
  temperature : float;
  top_p : float;
  repeat_penalty : float;
  stop : list string
}.

(** A loaded model: on a prompt it gives the text of the first choice,
    [response['choices'][0]['text']], or raises (the invocation itself,
    or the indexing of its response). *)
Record Llama : Type := { complete : string -> sampling -> result string }.

Inductive event : Type :=
| Enter_get_price_from_llm (crop : string)
| Enter_get_recommendations (crop : string)
| Load_model
| Model_call (prompt : string) (params : sampling)
| Sleep (seconds : float)
| St_warning (msg : string)
| St_error (msg : string).

(** [st.session_state] as far as this class uses it: the key [llm],
    absent, [None] or a model; with it the outcome of [Llama(...)] on
    the model file and the trace of what was done. *)
Record world : Type := {
  session_llm : option (option Llama);
  loader : result Llama;
  trace : list event
}.

(** What the code takes from its runtime: the builtin [float] on a
    [str], and the text of the [AttributeError] that
    [st.session_state] raises for a key that is not set. *)
Class Runtime : Type := {
  py_float : string -> result float;
  missing_key : string -> string
}.

(** A value stored in the prediction dictionary. *)
Inductive pyval : Type :=
| VStr (s : string)
| VFloat (x : float).

(** A dictionary in insertion order. *)
Definition dict : Type := list (string * pyval).

Fixpoint dict_get (k : string) (d : dict) : option pyval :=
  match d with
  | [] => None
  | (k', v) :: d' => if String.eqb k k' then Some v else dict_get k d'
  end.

(** [k in d] *)
Definition dict_has (k : string) (d : dict) : bool :=
  match dict_get k d with Some _ => true | None => false end.

(** The table of [__init__], in kg per hectare. *)
Definition yields_per_hectare : gmap string Z :=
  list_to_map
    [ ("rice", 2873%Z); ("wheat", 3615%Z); ("jowar", 1175%Z);
      ("bajra", 1449%Z); ("maize", 3321%Z); ("tur", 831%Z);
      ("gram", 1224%Z); ("groundnut", 2179%Z);
      ("rapeseed and mustard", 1443%Z); ("sugarcane", 79000%Z);
      ("cotton", 436%Z); ("jute", 2795%Z); ("mesta", 2056%Z);
      ("potato", 24000%Z); ("tea", 2042%Z); ("coffee", 780%Z);
      ("rubber", 973%Z) ].

(** [int / float]: the integer, here a small non-negative one, is
    converted, then divided. *)
Definition float_of_int (n : Z) : float := PrimFloat.of_uint63 (Uint63.of_Z n).

Definition acres_per_hectare : float := 2.47105%float.

Definition per_acre (yield_value : Z) : float :=
  (float_of_int yield_value / acres_per_hectare)%float.

Record YieldAdvisorLLM : Type := { static_yields : gmap string float }.

Definition emit (e : event) : M world unit :=
  fun w => (Ok tt, {| session_llm := session_llm w;
                      loader := loader w;
                      trace := trace w ++ [e] |}).

(** ['llm' in st.session_state] *)
Definition session_has_llm : M world bool :=
  fun w => (Ok (match session_llm w with Some _ => true | None => false end), w).

(** [st.session_state.llm] *)
Definition session_get_llm `{Runtime} : M world (option Llama) :=
  fun w => match session_llm w with
           | Some v => (Ok v, w)
           | None => (Err (missing_key "llm"), w)
           end.

(** [st.session_state.llm = v] *)
Definition session_set_llm (v : option Llama) : M world unit :=
  fun w => (Ok tt, {| session_llm := Some v;
                      loader := loader w;
                      trace := trace w |}).

(** [Llama(model_path=..., n_ctx=2048, n_threads=4, n_gpu_layers=0,
    verbose=False)] *)
Definition load_model : M world Llama :=
  emit Load_model ;;; fun w => (loader w, w).

Definition initialize_llm : M world unit :=
  let* present := session_has_llm in
  if present then ret tt
  else
    try_except
      (let* handle := load_model in session_set_llm (Some handle))
      (fun msg =>
         emit (St_error ("Error initializing LLM: " ++ msg)) ;;;
         session_set_llm None).

(** The object [__init__] builds: the table, every value converted
    from per hectare to per acre. *)
Definition advisor : YieldAdvisorLLM :=
  {| static_yields := per_acre <$> yields_per_hectare |}.

(** [__init__] *)
Definition new_YieldAdvisorLLM : M world YieldAdvisorLLM :=
  let self := advisor in
  initialize_llm ;;; ret self.

(** [parse_response], the body of its [try]. *)
Fixpoint parse_lines `{Runtime} (lines : list string)
    (yield_value price_value : option float)
  : result (option float * option float) :=
  match lines with
  | [] => Ok (yield_value, price_value)
  | line :: rest =>
      if Py.startswith "Yield:" line then
        result_bind (py_float (Py.strip (Py.replace "Yield:" "" line)))
          (fun v => parse_lines rest (Some v) price_value)
      else if Py.startswith "Price:" line then
        result_bind (py_float (Py.strip (Py.replace "Price:" "" line)))
          (fun v => parse_lines rest yield_value (Some v))
      else parse_lines rest yield_value price_value
  end.

Definition parse_response `{Runtime} (response : string)
  : M world (option float * option float) :=
  try_except
    (lift (parse_lines (Py.split Py.newline (Py.strip response)) None None))
    (fun msg =>
       emit (St_warning ("Error parsing response: " ++ msg)) ;;;
       ret (None, None)).

(** [re.search(r'Price:\s*(\d+(?:\.\d+)?)', text)] on ASCII text,
    group 1 of a match that starts at the head of [s]. The classes [\s]
    and [\d] are taken on the ASCII range, where they are
    [Py.is_space] and [Py.is_digit]; on other text the pattern also
    takes the white space and the decimal digits of other scripts.
    White space and digits are disjoint and every quantifier is greedy,
    so no backtracking inside the pattern finds a match the greedy
    reading misses. *)
Definition match_price_here (s : string) : option string :=
  if String.prefix "Price:" s then
    let after := String.substring 6 (String.length s - 6) s in
    let '(_, r) := Py.span Py.is_space after in
    let '(ds, r') := Py.span Py.is_digit r in
    if Py.is_empty ds then None
    else match r' with
         | String "." r'' =>
             let '(fs, _) := Py.span Py.is_digit r'' in
             if Py.is_empty fs then Some ds else Some (ds ++ "." ++ fs)
         | _ => Some ds
         end
  else None.

(** The leftmost match. *)
Fixpoint search_price (s : string) : option string :=
  match match_price_here s with
  | Some g => Some g
  | None => match s with
            | EmptyString => None
            | String _ s' => search_price s'
            end
  end.

Definition price_prompt (crop : string) : string :=
  "<s>[INST] You are an agricultural market specialist. Provide the current market price per kg for " ++ crop ++ " in India based on recent trends. Return ONLY the numeric price value in rupees per kg.

        For reference, some typical crop prices:
        Rice: 20-25 Rs/kg
        Wheat: 25-30 Rs/kg
        Cotton: 60-70 Rs/kg
        Potato: 15-20 Rs/kg

        Respond EXACTLY in this format (just the number):
        Price: XXX[/INST]".

Definition combined_prompt (crop : string) : string :=
  "<s>[INST] You are an agricultural specialist. For the crop " ++ crop ++ " in India:
                        1. Provide its yield per acre (in kg/acre)
                        2. Provide its current market price (in Rs/kg)

                        For reference:
                        Typical yields (2023-24):
                        - Rice: 1162 kg/acre
                        - Wheat: 1463 kg/acre
                        - Cotton: 176 kg/acre
                        - Potato: 9713 kg/acre

                        Typical prices:
                        - Rice: 20-25 Rs/kg
                        - Wheat: 25-30 Rs/kg
                        - Cotton: 60-70 Rs/kg
                        - Potato: 15-20 Rs/kg

                        Respond EXACTLY in this format (just the numbers):
                        Yield: XXX
                        Price: XXX[/INST]".

Definition price_sampling : sampling :=
  {| max_tokens := 20; temperature := 0.9; top_p := 0.1;
     repeat_penalty := 1.2; stop := ["[INST]"; "</s>"] |}.

Definition combined_sampling : sampling :=
  {| max_tokens := 20; temperature := 0.7; top_p := 0.9;
     repeat_penalty := 1.2; stop := ["[INST]"; "</s>"] |}.

(** [st.session_state.llm(prompt, ...)['choices'][0]['text']] *)
Definition invoke (handle : Llama) (prompt : string) (params : sampling)
  : M world string :=
  emit (Model_call prompt params) ;;; lift (complete handle prompt params).

(** The guard both model paths start with: the handle, or [None] when
    there is none even after [initialize_llm]. *)
Definition ensure_llm `{Runtime} : M world (option Llama) :=
  let* current := session_get_llm in
  match current with
  | Some handle => ret (Some handle)
  | None => initialize_llm ;;; session_get_llm
  end.

Definition get_price_from_llm `{Runtime} (crop : string)
  : M world (option float) :=
  emit (Enter_get_price_from_llm crop) ;;;
  let* llm := ensure_llm in
  match llm with
  | None => ret None
  | Some handle =>
      try_except
        (let* text := invoke handle (price_prompt crop) price_sampling in
         let price_text := Py.strip text in
         match search_price price_text with
         | Some group1 => let* v := lift (py_float group1) in ret (Some v)
         | None => ret None
         end)
        (fun msg =>
           emit (St_warning ("Error getting price: " ++ msg)) ;;; ret None)
  end.

Definition get_recommendations `{Runtime} (crop : string)
  : M world (option float * option float) :=
  emit (Enter_get_recommendations crop) ;;;
  let* llm := ensure_llm in
  match llm with
  | None => ret (None, None)
  | Some handle =>
      try_except
        (emit (Sleep 0.1) ;;;
         let* text := invoke handle (combined_prompt crop) combined_sampling in
         let response_text := Py.strip text in
         parse_response response_text)
        (fun msg =>
           emit (St_warning ("Error getting recommendations: " ++ msg)) ;;;
           ret (None, None))
  end.

Definition error_dict (crop : string) (acres : float) (msg : string) : dict :=
  [ ("crop", VStr crop); ("acres", VFloat acres); ("error", VStr msg) ].

Definition prediction_dict (crop : string) (acres yield_per_acre price_per_kg : float)
  : dict :=
  let expected_yield := (acres * yield_per_acre)%float in
  let total_income := (expected_yield * price_per_kg)%float in
  [ ("crop", VStr crop); ("acres", VFloat acres);
    ("yield_per_acre", VFloat yield_per_acre);
    ("expected_yield", VFloat expected_yield);
    ("price_per_kg", VFloat price_per_kg);
    ("total_income", VFloat total_income);
    ("unit", VStr "kg") ].

(** [crop.lower().strip()] *)
Definition normalize (crop : string) : string := Py.strip (Py.lower crop).

(** [get_yield_prediction]; [None] is Python's [None]. *)
Definition get_yield_prediction `{Runtime} (self : YieldAdvisorLLM)
    (crop : string) (acres : float) : M world (option dict) :=
  if Py.is_empty crop then ret None
  else
    let crop := normalize crop in
    try_except
      (match static_yields self !! crop with
       | Some yield_per_acre =>
           let* price := get_price_from_llm crop in
           match price with
           | None => ret (Some (error_dict crop acres "Could not determine price"))
           | Some price_per_kg =>
               ret (Some (prediction_dict crop acres yield_per_acre price_per_kg))
           end
       | None =>
           let* yp := get_recommendations crop in
           match yp with
           | (Some yield_per_acre, Some price_per_kg) =>
               ret (Some (prediction_dict crop acres yield_per_acre price_per_kg))
           | _ =>
               ret (Some (error_dict crop acres "Could not determine yield or price"))
           end
       end)
      (fun msg => ret (Some (error_dict crop acres msg))).

End Yield.

(** A runtime to evaluate the advisor on concrete responses. Its
    [float] reads a decimal numeral, [[+-]digits[.digits]] with white
    space around it and at most fifteen digits: the digits and the power
    of ten are then exact in binary64 and the one division rounds
    correctly, which is the value the builtin gives. It rejects every
    other text, also the forms the builtin accepts beyond these
    (exponents, [inf], [nan], underscores); it is used on plain
    numerals only. The text it gives for a missing session key stands
    for Streamlit's. *)
Module Decimal.

Definition digit_value (c : ascii) : float :=
  Yield.float_of_int (Z.of_nat (nat_of_ascii c - 48)).

Fixpoint digits_value (s : string) (acc : float) : float :=
  match s with
  | EmptyString => acc
  | String c s' => digits_value s' (acc * 10 + digit_value c)%float
  end.

Fixpoint pow10 (n : nat) : float :=
  match n with
  | O => 1%float
  | S k => (10 * pow10 k)%float
  end.

Definition float_of_decimal (text : string) : result float :=
  let s := Py.strip text in
  let '(negative, body) :=
    match s with
    | String "-" r => (true, r)
    | String "+" r => (false, r)
    | _ => (false, s)
    end in
  let '(int_part, r) := Py.span Py.is_digit body in
  let '(frac_part, r') :=
    match r with
    | String "." r2 => Py.span Py.is_digit r2
    | _ => (EmptyString, r)
    end in
  let digits := int_part ++ frac_part in
  if Py.is_empty r' && negb (Py.is_empty digits)
     && Nat.leb (String.length digits) 15
  then
    let v := (digits_value digits 0 / pow10 (String.length frac_part))%float in
    Ok (if negative then (- v)%float else v)
  else Err ("could not convert string to float: " ++ text).

#[export] Instance runtime : Yield.Runtime := {|
  Yield.py_float := float_of_decimal;
  Yield.missing_key := fun k => "st.session_state has no attribute " ++ k
|}.

End Decimal.

(** ** The profit dashboard ([profit_dashboard.py]) *)

Module Dashboard.

Record expense : Type := {
  category : string;
  description : string;
  amount : float;
  date : string
}.

(** The three widgets of one row of the expense form. *)
Record row : Type := {
  name : string;
  row_description : string;
  row_amount : float
}.

Inductive level : Type := Success | Info | Warning | Error.

(** A message put on the page. *)
Record notice : Type := { severity : level; text : string }.

(** [if name and amount > 0: temp_expenses.append({...})] *)
Definition row_expense (now : string) (r : row) : option expense :=
  if negb (Py.is_empty (name r)) && (0 <? row_amount r)%float
  then Some {| category := name r;
               description := row_description r;
               amount := row_amount r;
               date := now |}
  else None.

(** [for i in range(5)]: [inputs i] is what the widgets of row [i]
    hold, [clock i] what [datetime.now()] formats to in that pass. *)
Definition temp_expenses (inputs : nat -> row) (clock : nat -> string)
  : list expense :=
  omap (fun i => row_expense (clock i) (inputs i)) (seq 0 5).

(** The expense form: the session list after it and what it reports. *)
Definition expense_form (inputs : nat -> row) (clock : nat -> string)
    (submitted : bool) (expenses : list expense)
  : list expense * list notice :=
  let temp := temp_expenses inputs clock in
  if submitted && negb (Nat.eqb (length temp) 0)
  then ((expenses ++ temp)%list,
        [ {| severity := Success;
             text := "Successfully added " ++ pretty (length temp)
                     ++ " expenses!" |} ])
  else (expenses, []).

(** [df_expenses['amount'].sum()], adding from the left. From eight
    amounts on pandas adds them in another order, and the two sums may
    differ in the last bits. *)
Definition total_expenses (expenses : list expense) : float :=
  fold_left (fun acc e => (acc + amount e)%float) expenses 0%float.

(** Python's [x / y] on floats raises for a zero divisor. (The sum is a
    NumPy scalar, whose division returns an infinity or a NaN instead;
    the stricter of the two is taken here.) *)
Definition py_div (x y : float) : result float :=
  if (y =? 0)%float then Err "float division by zero" else Ok (x / y)%float.

(** [(profit / total_yield * 100) if total_yield > 0 else 0]; the
    integer [0] of the second branch is shown as the float it is
    formatted as. *)
Definition profit_margin (profit total_yield : float) : result float :=
  if (0 <? total_yield)%float
  then result_bind (py_div profit total_yield) (fun q => Ok (q * 100)%float)
  else Ok 0%float.

Record metrics : Type := {
  m_total_expenses : float;
  m_profit : float;
  m_profit_margin : float
}.

(** The metrics block, entered when the session list is not empty. *)
Definition compute_metrics (expenses : list expense) (total_yield : float)
  : result metrics :=
  let total := total_expenses expenses in
  let profit := (total_yield - total)%float in
  result_bind (profit_margin profit total_yield)
    (fun margin => Ok {| m_total_expenses := total;
                         m_profit := profit;
                         m_profit_margin := margin |}).

(** One pass over the page from the expense form on: the form, then,
    if there are expenses, the analytics with the button that clears
    them all. [total_yield] is what the revenue input gave: that
    widget comes first on the page and refuses a session value below
    its minimum, in which case the pass ends there, before anything
    told here. The clearing is followed by a rerun of the page. *)
Definition render_profit_dashboard_tab (inputs : nat -> row) (clock : nat -> string)
    (submitted clear_clicked : bool) (total_yield : float)
    (expenses : list expense)
  : list expense * list notice * option (result metrics) :=
  let '(expenses1, notices) := expense_form inputs clock submitted expenses in
  match expenses1 with
  | [] =>
      (expenses1,
       (notices ++ [ {| severity := Info;
                        text := "No expenses added yet. Start by adding your expenses using the form above!" |} ])%list,
       None)
  | _ :: _ =>
      (if clear_clicked then [] else expenses1,
       notices,
       Some (compute_metrics expenses1 total_yield))
  end.

(** The session lists the page can reach from the empty one. *)
Inductive reachable : list expense -> Prop :=
| reach_init : reachable []
| reach_render inputs clock submitted clear_clicked total_yield expenses :
    reachable expenses ->
    reachable
      (render_profit_dashboard_tab inputs clock submitted clear_clicked
         total_yield expenses).1.1.

End Dashboard.

(** ** Python [str] as Unicode text *)

(** The location input is tested with [str.isdigit] and [len], which
    read characters, not bytes, and digits of every script; it is
    therefore kept as the sequence of its code points. *)
Module Unicode.

Definition text : Type := list N.

(** What is taken from the Unicode character database: whether a
    character counts as a digit for [str.isdigit]. *)
Class Database : Type := { char_isdigit : N -> bool }.

(** The text of an ASCII literal. *)
Definition of_ascii (s : string) : text :=
  N_of_ascii <$> list_ascii_of_string s.

(** [s.isdigit()]: at least one character, and all of them digits. *)
Definition isdigit `{Database} (s : text) : bool :=
  negb (Nat.eqb (length s) 0) && forallb char_isdigit s.

(** [len(s)] *)
Definition len (s : text) : nat := length s.

End Unicode.

(** ** The location resolver ([final.py]) *)

Module Location.

Local Open Scope comp_scope.

(** A decoded JSON value; [JNull] is Python's [None]. *)
Inductive json : Type :=
| JNull
| JBool (b : bool)
| JNum (x : float)
| JStr (s : string)
| JArr (items : list json)
| JObj (members : gmap string json).

(** What [requests.get] returns: the status and what [.json()] gives. *)
Record response : Type := {
  status_code : Z;
  json_body : result json
}.

(** A geopy [Location]. *)
Record place : Type := {
  latitude : float;
  longitude : float;
  address : string
}.

Inductive event : Type :=
| Http_get (url : string) (timeout : Z)
| Geocode (query : Unicode.text) (timeout : Z)
| St_error (msg : string).

Record world : Type := {
  http : string -> result response;
  geocoder : Unicode.text -> result (option place);
  trace : list event
}.

(** What the code takes from its runtime: [str(v)] for a JSON value
    that is not a string, and the text of the [AttributeError] raised
    by [v.get] when [v] is not a dictionary. *)
Class Runtime : Type := {
  json_str : json -> string;
  no_get : json -> string
}.

Definition emit (e : event) : M world unit :=
  fun w => (Ok tt, {| http := http w; geocoder := geocoder w;
                      trace := trace w ++ [e] |}).

(** [requests.get(url, timeout=t)] *)
Definition requests_get (url : string) (timeout : Z) : M world response :=
  emit (Http_get url timeout) ;;; fun w => (http w url, w).

(** [geolocator.geocode(query, timeout=t)] *)
Definition geocode (query : Unicode.text) (timeout : Z)
  : M world (option place) :=
  emit (Geocode query timeout) ;;; fun w => (geocoder w query, w).

(** [data.get(key, default)] *)
Definition get `{Runtime} (data : json) (key : string) (default : json)
  : result json :=
  match data with
  | JObj members => Ok (match members !! key with
                        | Some v => v
                        | None => default
                        end)
  | _ => Err (no_get data)
  end.

(** A replacement field of an f-string, [{v}]. *)
Definition format `{Runtime} (v : json) : string :=
  match v with
  | JStr s => s
  | _ => json_str v
  end.

Definition ip_url : string := "http://ip-api.com/json".

Definition unresolved {A B C} : option A * option B * option C :=
  (None, None, None).

(** [get_location_from_ip], the function under its decorator; the
    components are Python values, [JNull] standing for [None]. With
    the decorator it is [Cached.get_location_from_ip]. *)
Definition get_location_from_ip `{Runtime} : M world (json * json * json) :=
  try_except
    (let* resp := requests_get ip_url 5 in
     if (status_code resp =? 200)%Z then
       let* data := lift (json_body resp) in
       let* lat := lift (get data "lat" JNull) in
       let* lon := lift (get data "lon" JNull) in
       let* city := lift (get data "city" (JStr "")) in
       let* region := lift (get data "regionName" (JStr "")) in
       let* country := lift (get data "country" (JStr "")) in
       ret (lat, lon,
            JStr (format city ++ ", " ++ format region ++ ", " ++ format country))
     else ret (JNull, JNull, JNull))
    (fun msg =>
       emit (St_error ("Error getting location: " ++ msg)) ;;;
       ret (JNull, JNull, JNull)).

(** [geocode_location], the function under its decorator; with the
    decorator it is [Cached.geocode_location]. Building the [Nominatim]
    client does nothing that is seen here; its [geocode] method is the
    oracle. A [Location] found is always true in [if location:]. *)
Definition geocode_location `{Unicode.Database} (location_input : Unicode.text)
  : M world (option float * option float * option string) :=
  try_except
    (let* location :=
       if Unicode.isdigit location_input
          && Nat.eqb (Unicode.len location_input) 6
       then geocode (location_input ++ Unicode.of_ascii ", India")%list 5
       else geocode location_input 5 in
     match location with
     | Some l => ret (Some (latitude l), Some (longitude l), Some (address l))
     | None => ret unresolved
     end)
    (fun msg =>
       emit (St_error ("Error geocoding location: " ++ msg)) ;;;
       ret unresolved).

End Location.

(** ** The two lookups under [st.cache_data] *)

Module Cached.

Import Location.

(** An entry of the cache: the value the function returned, the
    errors it put on the page, which are put there again when the
    entry is used, and the time in seconds the entry is kept for. *)
Record entry (A : Type) : Type := {
  cached_value : A;
  replayed : list string;
  time_to_live : Z
}.
Arguments cached_value {A} e.
Arguments replayed {A} e.
Arguments time_to_live {A} e.

(** The world of the lookups with the entries Streamlit holds for
    them at the time of a call; an entry whose time is over is no
    longer among them. The geocoding entries are kept by argument. *)
Record app : Type := {
  world : Location.world;
  geocode_cache :
    gmap (list N) (entry (option float * option float * option string));
  ip_cache : option (entry (json * json * json))
}.

Definition with_world (w : Location.world) (a : app) : app :=
  {| world := w; geocode_cache := geocode_cache a; ip_cache := ip_cache a |}.

(** The errors put on the page since the trace had [before] events. *)
Definition errors_since (before : nat) (t : list event) : list string :=
  omap (fun e => match e with
                 | St_error msg => Some msg
                 | _ => None
                 end) (drop before t).

(** The stored errors, put on the page again. *)
Definition replay (errors : list string) (w : Location.world) : Location.world :=
  {| http := http w; geocoder := geocoder w;
     trace := (trace w ++ (St_error <$> errors))%list |}.

(** [@st.cache_data(ttl=...)] on a function: with an entry for the
    arguments the function is not run, the stored value is returned and
    the stored errors are shown; without one the function is run and,
    unless it raises, what it returned and showed is stored. *)
Definition cache_data {A} (ttl : Z) (lookup : app -> option (entry A))
    (store : entry A -> app -> app) (body : M Location.world A) : M app A :=
  fun a =>
    match lookup a with
    | Some e => (Ok (cached_value e), with_world (replay (replayed e) (world a)) a)
    | None =>
        let '(r, w') := body (world a) in
        match r with
        | Ok v =>
            (Ok v,
             store {| cached_value := v;
                      replayed := errors_since (length (trace (world a))) (trace w');
                      time_to_live := ttl |}
               (with_world w' a))
        | Err msg => (Err msg, with_world w' a)
        end
    end.

(** [@st.cache_data(ttl=300) def get_location_from_ip()] *)
Definition get_location_from_ip `{Runtime} : M app (json * json * json) :=
  cache_data 300 ip_cache
    (fun e a => {| world := world a; geocode_cache := geocode_cache a;
                   ip_cache := Some e |})
    Location.get_location_from_ip.

(** [@st.cache_data(ttl=3600) def geocode_location(location_input)] *)
Definition geocode_location `{Unicode.Database} (location_input : Unicode.text)
  : M app (option float * option float * option string) :=
  cache_data 3600 (fun a => geocode_cache a !! location_input)
    (fun e a => {| world := world a;
                   geocode_cache := <[location_input := e]> (geocode_cache a);
                   ip_cache := ip_cache a |})
    (Location.geocode_location location_input).

End Cached.

(** ** Concrete sessions, answers and forms *)

Module Samples.

Import Location.

(** A session whose model is loaded and gives [text] for every prompt. *)
Definition answering (text : string) : Yield.world :=
  {| Yield.session_llm := Some (Some {| Yield.complete := fun _ _ => Ok text |});
     Yield.loader := Err "model file not found";
     Yield.trace := [] |}.

(** A runtime to evaluate the IP lookup: strings, [None] and the
    booleans are rendered as Python renders them; numbers and
    containers, which the sample responses do not put into the
    address, are shown as an ellipsis. *)
#[export] Instance plain : Location.Runtime := {|
  json_str := fun v =>
    match v with
    | JNull => "None"
    | JBool true => "True"
    | JBool false => "False"
    | JStr s => s
    | _ => "..."
    end;
  no_get := fun _ => "object has no attribute 'get'"
|}.

(** The provider's answer for an address it cannot place: status 200
    and a body without coordinates, city, region or country. *)
Definition failure_body : gmap string json :=
  list_to_map [ ("status", JStr "fail");
                ("message", JStr "reserved range");
                ("query", JStr "127.0.0.1") ].

Definition provider_answers (resp : response) : Location.world :=
  {| http := fun _ => Ok resp;
     geocoder := fun _ => Ok None;
     trace := [] |}.

Definition provider_fails : Location.world :=
  provider_answers {| status_code := 200; json_body := Ok (JObj failure_body) |}.

(** A geocoder that finds nothing. *)
Definition no_match : Location.world :=
  {| http := fun _ => Err "unreachable";
     geocoder := fun _ => Ok None;
     trace := [] |}.

(** A form with one row filled in, one row with a category and no
    amount, and three rows left as they are. *)
Definition one_row (i : nat) : Dashboard.row :=
  match i with
  | 0 => {| Dashboard.name := "Seeds";
            Dashboard.row_description := "hybrid maize";
            Dashboard.row_amount := 100 |}
  | 1 => {| Dashboard.name := "Labor";
            Dashboard.row_description := "";
            Dashboard.row_amount := 0 |}
  | _ => {| Dashboard.name := "";
            Dashboard.row_description := "";
            Dashboard.row_amount := 0 |}
  end.

Definition noon (i : nat) : string := "2024-06-01 12:00:00".

Definition spent (category : string) (amount : float) : Dashboard.expense :=
  {| Dashboard.category := category;
     Dashboard.description := "";
     Dashboard.amount := amount;
     Dashboard.date := "2024-06-01 12:00:00" |}.

(** What the form makes of [one_row]. *)
Definition seeds_entry : Dashboard.expense :=
  {| Dashboard.category := "Seeds";
     Dashboard.description := "hybrid maize";
     Dashboard.amount := 100;
     Dashboard.date := "2024-06-01 12:00:00" |}.

Definition three_expenses : list Dashboard.expense :=
  [ spent "Seeds" 100; spent "Labor" 200; spent "Irrigation" 50 ].

End Samples.

(** ** Concrete inputs and caches for the lookups *)

Module LookupSamples.

(** A part of the character database to evaluate with: the digits of
    ASCII and of Devanagari. The database has the digits of many more
    scripts; the properties hold for every database. *)
#[export] Instance digits : Unicode.Database := {|
  Unicode.char_isdigit := fun c =>
    ((48 <=? c) && (c <=? 57) || (2406 <=? c) && (c <=? 2415))%N
|}.

Definition pincode : Unicode.text := Unicode.of_ascii "110001".

(** The same postal code in Devanagari digits, U+0967 U+0967 U+0966
    U+0966 U+0966 U+0967. *)
Definition devanagari_pincode : Unicode.text :=
  [2407; 2407; 2406; 2406; 2406; 2407]%N.

Definition new_delhi : Unicode.text := Unicode.of_ascii "New Delhi".

(** Nothing cached, a geocoder that finds nothing. *)
Definition cold : Cached.app :=
  {| Cached.world := Samples.no_match;
     Cached.geocode_cache := ∅;
     Cached.ip_cache := None |}.

(** Nothing cached, and the provider's answer for an address it
    cannot place. *)
Definition cold_failing : Cached.app :=
  {| Cached.world := Samples.provider_fails;
     Cached.geocode_cache := ∅;
     Cached.ip_cache := None |}.

End LookupSamples.

(** ** Predicates the properties are stated with *)

Module Props.

Import Yield.

(** What the price path may leave in the trace after its entry: the one
    price prompt with its parameters, and warnings. *)
Definition price_path_event (crop : string) (e : event) : Prop :=
  match e with
  | Model_call p s => p = price_prompt crop /\ s = price_sampling
  | St_warning _ => True
  | _ => False
  end.

(** What the combined path may leave in the trace after its entry. *)
Definition combined_path_event (crop : string) (e : event) : Prop :=
  match e with
  | Model_call p s => p = combined_prompt crop /\ s = combined_sampling
  | Sleep _ | St_warning _ => True
  | _ => False
  end.

(** The model invocations of a trace, oldest first. *)
Definition model_calls (t : list event) : list (string * sampling) :=
  omap (fun e => match e with
                 | Model_call p s => Some (p, s)
                 | _ => None
                 end) t.

(** The response, read as [parse_response] reads it, has a line that
    starts with [label]. *)
Definition has_line (label response : string) : bool :=
  existsb (Py.startswith label) (Py.split Py.newline (Py.strip response)).

(** The prediction carries yield, price and income, and no error. *)
Definition complete_prediction (d : dict) : Prop :=
  dict_has "yield_per_acre" d = true /\ dict_has "price_per_kg" d = true
  /\ dict_has "total_income" d = true /\ dict_has "error" d = false.

(** The prediction carries an error, and none of yield, price, income. *)
Definition failed_prediction (d : dict) : Prop :=
  dict_has "error" d = true /\ dict_has "yield_per_acre" d = false
  /\ dict_has "price_per_kg" d = false /\ dict_has "total_income" d = false.

(** Exactly six characters, each one a digit as [str.isdigit] has
    it. *)
Definition six_numeric `{Unicode.Database} (s : Unicode.text) : Prop :=
  length s = 6 /\ Forall (fun c => Unicode.char_isdigit c = true) s.

(** The queries sent to the geocoder, oldest first. *)
Definition geocode_queries (t : list Location.event) : list Unicode.text :=
  omap (fun e => match e with
                 | Location.Geocode q _ => Some q
                 | _ => None
                 end) t.

(** A stored expense as the form admits it. *)
Definition admitted (e : Dashboard.expense) : Prop :=
  (0 <? Dashboard.amount e)%float = true
  /\ (0 <=? Dashboard.amount e)%float = true
  /\ Dashboard.category e <> "".

(** The text is empty or starts with a character that is no white
    space. *)
Definition head_kept (s : string) : Prop :=
  match s with
  | EmptyString => True
  | String c _ => Py.is_space c = false
  end.

End Props.

(** ** Further predicates *)

Module Reading.

Import Yield.

(** The line starts with one of the two labels. *)
Definition labelled (line : string) : bool :=
  Py.startswith "Yield:" line || Py.startswith "Price:" line.

(** What [parse_response] passes to [float] for a labelled line: the
    line without the label it starts with, stripped. *)
Definition payload (line : string) : string :=
  if Py.startswith "Yield:" line
  then Py.strip (Py.replace "Yield:" "" line)
  else Py.strip (Py.replace "Price:" "" line).

(** A labelled line whose payload [float] rejects. *)
Definition unreadable `{Runtime} (line : string) : Prop :=
  labelled line = true /\ exists msg, py_float (payload line) = Err msg.


End Reading.

(** ** The expense categories ([profit_dashboard.py]) *)

Module Categories.

(** The list of the first initialisation. *)
Definition default_categories : list string :=
  [ "Seeds"; "Fertilizers"; "Pesticides"; "Labor"; "Equipment";
    "Irrigation"; "Transportation"; "Others"; "Cleaning" ].

(** The list of the second initialisation, the same without the last
    entry. *)
Definition second_default_categories : list string :=
  [ "Seeds"; "Fertilizers"; "Pesticides"; "Labor"; "Equipment";
    "Irrigation"; "Transportation"; "Others" ].

(** [if 'expense_categories' not in st.session_state:
       st.session_state.expense_categories = initial] *)
Definition ensure_categories (initial : list string)
    (expense_categories : option (list string)) : option (list string) :=
  match expense_categories with
  | None => Some initial
  | Some l => Some l
  end.

(** The two initialisations of the key, one after the other. *)
Definition initialize_categories (expense_categories : option (list string))
  : option (list string) :=
  ensure_categories second_default_categories
    (ensure_categories default_categories expense_categories).

(** [new_category in categories] *)
Definition known (new_category : string) (categories : list string) : bool :=
  existsb (String.eqb new_category) categories.

(** The input for a new category: the list after it and what is
    reported. *)
Definition add_category (new_category : string) (categories : list string)
  : list string * list Dashboard.notice :=
  if negb (Py.is_empty new_category) && negb (known new_category categories)
  then ((categories ++ [new_category])%list,
        [ {| Dashboard.severity := Dashboard.Success;
             Dashboard.text := "Added new category: " ++ new_category |} ])
  else (categories, []).

(** [options=[''] + st.session_state.expense_categories] *)
Definition options (categories : list string) : list string :=
  "" :: categories.

(** The category lists a session can hold: the one the page sets up
    when there is none, and those the input makes of it. *)
Inductive reachable : list string -> Prop :=
| reach_initial categories :
    initialize_categories None = Some categories -> reachable categories
| reach_add new_category categories :
    reachable categories ->
    reachable (add_category new_category categories).1.

End Categories.

(** ** The yield advisor tab ([yield_prediction.py]) *)

Module YieldTab.

Import Yield.
Local Open Scope comp_scope.

(** A pandas [DataFrame] as far as the tab uses one: the column names
    in order, and per row the cells that are there; a cell that is not
    there is a NaN. *)
Record frame : Type := { columns : list string; rows : list dict }.

(** What is put on the page. *)
Inductive shown : Type :=
| Show_spinner (text : string)
| Show_subheader (text : string)
| Show_warning (text : string)
| Show_error (text : string)
| Show_dataframe (df : frame)
| Show_metric (label value : string)
| Show_download (label data file_name mime : string).

(** The session as the tab uses it, after
    [StateManager.initialize_state()], which is not among the sources,
    has run: the model's part of it, the keys [yield_advisor],
    [num_crops] and [total_income_value], and the page. *)
Record page : Type := {
  session : world;
  yield_advisor : option YieldAdvisorLLM;
  num_crops : option Z;
  total_income_value : option float;
  screen : list shown
}.

(** The widgets of one pass. *)
Record widgets : Type := {
  add_clicked : bool;
  remove_clicked : bool;
  crop_input : nat -> string;
  acres_input : nat -> float;
  submit_button : bool
}.

(** What the tab takes from Python and pandas: the format [:,.2f] of a
    float, the builtin [sum] on floats (started from the integer 0),
    [to_csv], and the texts of the exceptions pandas raises. *)
Class Rendering : Type := {
  format_2f : float -> string;
  py_sum : list float -> float;
  to_csv : frame -> string;
  not_in_index : list string -> string;
  not_in_axis : string -> string;
  length_mismatch : nat -> nat -> string
}.

Definition show (e : shown) : M page unit :=
  fun p => (Ok tt, {| session := session p;
                      yield_advisor := yield_advisor p;
                      num_crops := num_crops p;
                      total_income_value := total_income_value p;
                      screen := (screen p ++ [e])%list |}).

(** A step of the advisor, run on the session of the page. *)
Definition in_session {A} (m : M world A) : M page A :=
  fun p => let '(r, w) := m (session p) in
           (r, {| session := w;
                  yield_advisor := yield_advisor p;
                  num_crops := num_crops p;
                  total_income_value := total_income_value p;
                  screen := screen p |}).

Definition set_yield_advisor (a : YieldAdvisorLLM) : M page unit :=
  fun p => (Ok tt, {| session := session p;
                      yield_advisor := Some a;
                      num_crops := num_crops p;
                      total_income_value := total_income_value p;
                      screen := screen p |}).

Definition set_num_crops (n : Z) : M page unit :=
  fun p => (Ok tt, {| session := session p;
                      yield_advisor := yield_advisor p;
                      num_crops := Some n;
                      total_income_value := total_income_value p;
                      screen := screen p |}).

Definition set_total_income_value (x : float) : M page unit :=
  fun p => (Ok tt, {| session := session p;
                      yield_advisor := yield_advisor p;
                      num_crops := num_crops p;
                      total_income_value := Some x;
                      screen := screen p |}).

(** [k in keys] *)
Definition has_key (k : string) (keys : list string) : bool :=
  existsb (String.eqb k) keys.

Definition add_key (seen : list string) (k : string) : list string :=
  if has_key k seen then seen else (seen ++ [k])%list.

(** The columns of [pd.DataFrame(records)]: the keys of the records,
    each once, in the order they are first met. *)
Definition column_names (records : list dict) : list string :=
  fold_left (fun seen d => fold_left add_key (map fst d) seen) records [].

(** [pd.DataFrame(records)] *)
Definition DataFrame (records : list dict) : frame :=
  {| columns := column_names records; rows := records |}.

(** [df[cols]]: a [KeyError] for the names that are no columns. *)
Definition select `{Rendering} (cols : list string) (df : frame) : result frame :=
  match List.filter (fun c => negb (has_key c (columns df))) cols with
  | [] => Ok {| columns := cols;
                rows := map (List.filter (fun kv => has_key kv.1 cols)) (rows df) |}
  | missing => Err (not_in_index missing)
  end.

(** [df.fillna(v)] *)
Definition fillna (v : pyval) (df : frame) : frame :=
  {| columns := columns df;
     rows := map (fun row =>
                    (row ++ omap (fun c => if dict_has c row then None
                                           else Some (c, v)) (columns df))%list)
                 (rows df) |}.

(** [d[k] = v] *)
Fixpoint dict_set (k : string) (v : pyval) (d : dict) : dict :=
  match d with
  | [] => [(k, v)]
  | (k', v') :: d' =>
      if String.eqb k k' then (k, v) :: d' else (k', v') :: dict_set k v d'
  end.

(** The format [:,.2f] on a cell: a float is formatted, a NaN also, a
    string is refused. *)
Definition format_cell (f : float -> string) (cell : option pyval)
  : result string :=
  match cell with
  | Some (VFloat x) => Ok (f x)
  | None => Ok (f PrimFloat.nan)
  | Some (VStr _) => Err "Unknown format code 'f' for object of type 'str'"
  end.

Fixpoint format_rows (col : string) (f : float -> string) (records : list dict)
  : result (list dict) :=
  match records with
  | [] => Ok []
  | row :: rest =>
      result_bind (format_cell f (dict_get col row)) (fun cell =>
      result_bind (format_rows col f rest) (fun rest' =>
      Ok (dict_set col (VStr cell) row :: rest')))
  end.

(** [df[col] = df[col].apply(f)]: a [KeyError] for a name that is no
    column. *)
Definition apply_format (col : string) (f : float -> string) (df : frame)
  : result frame :=
  if has_key col (columns df)
  then result_bind (format_rows col f (rows df)) (fun rows' =>
       Ok {| columns := columns df; rows := rows' |})
  else Err ("'" ++ col ++ "'").

(** The values [pred[k] for pred in predictions], as [sum] draws them:
    a missing key raises when its record is reached, a string when it
    is added. *)
Fixpoint drawn (k : string) (predictions : list dict) (started : bool)
  : result (list float) :=
  match predictions with
  | [] => Ok []
  | d :: rest =>
      match dict_get k d with
      | None => Err ("'" ++ k ++ "'")
      | Some (VStr _) =>
          Err (if started
               then "unsupported operand type(s) for +: 'float' and 'str'"
               else "unsupported operand type(s) for +: 'int' and 'str'")
      | Some (VFloat x) =>
          result_bind (drawn k rest true) (fun xs => Ok (x :: xs))
      end
  end.

(** [sum(pred[k] for pred in predictions)] *)
Definition sum_of `{Rendering} (k : string) (predictions : list dict)
  : result float :=
  result_bind (drawn k predictions false) (fun xs => Ok (py_sum xs)).

(** The new name of a column, by its place among the old ones. *)
Fixpoint renamed (old new : list string) (k : string) : string :=
  match old, new with
  | o :: old', n :: new' => if String.eqb k o then n else renamed old' new' k
  | _, _ => k
  end.

(** [df.columns = names]: a [ValueError] unless there are as many
    names as columns. *)
Definition set_columns `{Rendering} (names : list string) (df : frame)
  : result frame :=
  if Nat.eqb (length names) (length (columns df))
  then Ok {| columns := names;
             rows := map (map (fun kv => (renamed (columns df) names kv.1, kv.2)))
                       (rows df) |}
  else Err (length_mismatch (length (columns df)) (length names)).

(** [df.drop(col, axis=1)] *)
Definition drop `{Rendering} (col : string) (df : frame) : result frame :=
  if has_key col (columns df)
  then Ok {| columns := List.filter (fun c => negb (String.eqb col c)) (columns df);
             rows := map (List.filter (fun kv => negb (String.eqb col kv.1)))
                       (rows df) |}
  else Err (not_in_axis col).

(** The rupee sign, in UTF-8. *)
Definition rupee : string :=
  String (ascii_of_nat 226) (String (ascii_of_nat 130)
    (String (ascii_of_nat 185) EmptyString)).

Definition display_names : list string :=
  [ "Crop"; "Acres"; "Yield per Acre"; "Expected Yield"; "Price per kg";
    "Total Income"; "Unit" ].

(** [display_predictions] *)
Definition display_predictions `{Rendering} (predictions : list dict)
  : M page unit :=
  show (Show_subheader "Yield Predictions") ;;;
  try_except
    (let df := DataFrame predictions in
     if has_key "error" (columns df) then
       show (Show_warning "Some predictions could not be calculated") ;;;
       let* selected := lift (select ["crop"; "acres"; "error"] df) in
       let df := fillna (VStr "-") selected in
       ret tt
     else
       let* df := lift (apply_format "yield_per_acre"
                          (fun x => format_2f x ++ " kg/acre") df) in
       let* df := lift (apply_format "expected_yield"
                          (fun x => format_2f x ++ " kg") df) in
       let* df := lift (apply_format "price_per_kg"
                          (fun x => rupee ++ format_2f x) df) in
       let* df := lift (apply_format "total_income"
                          (fun x => rupee ++ format_2f x) df) in
       let* total_area := lift (sum_of "acres" predictions) in
       let* total_yield := lift (sum_of "expected_yield" predictions) in
       let* total_income := lift (sum_of "total_income" predictions) in
       let* df := lift (set_columns display_names df) in
       let* df := lift (drop "Unit" df) in
       show (Show_dataframe df) ;;;
       show (Show_metric "Total Area" (format_2f total_area ++ " acres")) ;;;
       show (Show_metric "Total Expected Yield" (format_2f total_yield ++ " kg")) ;;;
       show (Show_metric "Total Income" (rupee ++ format_2f total_income)) ;;;
       let csv := to_csv df in
       show (Show_download "Download Predictions" csv "yield_predictions.csv"
               "text/csv"))
    (fun msg => show (Show_error ("Error displaying predictions: " ++ msg))).

(** The two buttons: one more crop, up to five; one less, down to
    one. *)
Definition buttons (add remove : bool) (n : Z) : Z :=
  let n := if add then Z.min 5 (n + 1) else n in
  if remove && (1 <? n)%Z then (n - 1)%Z else n.

(** [bool(prediction)] *)
Definition truthy (prediction : option dict) : bool :=
  match prediction with
  | Some (_ :: _) => true
  | _ => false
  end.

(** The rows of the form, [for i in range(num_crops)]. *)
Fixpoint crop_rows `{Runtime} (advisor : YieldAdvisorLLM) (inp : widgets)
    (indices : list nat) (predictions : list dict) : M page (list dict) :=
  match indices with
  | [] => ret predictions
  | i :: rest =>
      let crop := Py.lower (Py.strip (crop_input inp i)) in
      let acres := acres_input inp i in
      if Py.is_empty crop then crop_rows advisor inp rest predictions
      else
        show (Show_spinner ("Calculating predictions for " ++ crop ++ "...")) ;;;
        let* prediction := in_session (get_yield_prediction advisor crop acres) in
        if truthy prediction
        then crop_rows advisor inp rest
               (predictions ++ match prediction with
                               | Some d => [d]
                               | None => []
                               end)%list
        else crop_rows advisor inp rest predictions
  end.

(** The tab up to the end of the form: the advisor and the number of
    crops are set up, the buttons are read, the rows are run. The
    number of crops is written back also when no button changed it,
    which leaves the session as the code does. *)
Definition collect_predictions `{Runtime} (inp : widgets) : M page (list dict) :=
  let* advisor :=
    (fun p => match yield_advisor p with
              | Some a => ret a p
              | None =>
                  (let* a := in_session new_YieldAdvisorLLM in
                   set_yield_advisor a ;;; ret a) p
              end) in
  let* n :=
    (fun p => match num_crops p with
              | Some n => ret n p
              | None => (set_num_crops 1 ;;; ret 1%Z) p
              end) in
  let n := buttons (add_clicked inp) (remove_clicked inp) n in
  set_num_crops n ;;;
  crop_rows advisor inp (seq 0 (Z.to_nat n)) [].

(** [if submit_button: ...] *)
Definition on_submit `{Rendering} (submitted : bool) (predictions : list dict)
  : M page unit :=
  if submitted then
    match predictions with
    | [] => show (Show_error "Please enter at least one crop name")
    | _ :: _ =>
        display_predictions predictions ;;;
        if forallb (dict_has "total_income") predictions then
          let* total := lift (sum_of "total_income" predictions) in
          set_total_income_value total
        else ret tt
    end
  else ret tt.

(** [render_yield_advisor_tab] *)
Definition render_yield_advisor_tab `{Runtime} `{Rendering} (inp : widgets)
  : M page unit :=
  let* predictions := collect_predictions inp in
  on_submit (submit_button inp) predictions.

End YieldTab.

(** ** Predicates for the tab *)

Module TabProps.

Import Yield YieldTab.

(** The computation touches nothing but the page: the model's part
    of the session and the three keys are as before, and the page has
    what it had, and more. *)
Definition page_only {A} (m : M page A) : Prop :=
  forall p,
    session (m p).2 = session p
    /\ yield_advisor (m p).2 = yield_advisor p
    /\ num_crops (m p).2 = num_crops p
    /\ total_income_value (m p).2 = total_income_value p
    /\ exists added, screen (m p).2 = (screen p ++ added)%list.

(** A dictionary as [get_yield_prediction] returns them. *)
Definition produced (d : dict) : Prop :=
  (exists crop acres y price, d = prediction_dict crop acres y price)
  \/ (exists crop acres msg, d = error_dict crop acres msg).

(** The row of the form has a crop name. *)
Definition named (inp : widgets) (i : nat) : bool :=
  negb (Py.is_empty (Py.lower (Py.strip (crop_input inp i)))).

(** The rows the tab shows for [n] crops. *)
Definition row_indices (n : Z) : list nat := seq 0 (Z.to_nat n).

(** The crop name of row [i] as the tab passes it on. *)
Definition row_name (inp : widgets) (i : nat) : string :=
  Py.lower (Py.strip (crop_input inp i)).

(** The spinner of row [i]. *)
Definition row_spinner (inp : widgets) (i : nat) : shown :=
  Show_spinner ("Calculating predictions for " ++ row_name inp i ++ "...").

(** The prediction [d] is the one of row [i]. *)
Definition of_row (inp : widgets) (d : dict) (i : nat) : Prop :=
  dict_get "crop" d = Some (VStr (Py.lower (Py.strip (crop_input inp i))))
  /\ dict_get "acres" d = Some (VFloat (acres_input inp i))
  /\ produced d.

(** The keys of a full prediction, in order. *)
Definition prediction_keys : list string :=
  [ "crop"; "acres"; "yield_per_acre"; "expected_yield"; "price_per_kg";
    "total_income"; "unit" ].

(** The predictions have an error among them. *)
Definition some_error (predictions : list dict) : Prop :=
  exists crop acres msg, error_dict crop acres msg ∈ predictions.

(** A full prediction, by its four numbers. *)
Record harvest : Type := {
  h_crop : string;
  h_acres : float;
  h_yield : float;
  h_price : float
}.

Definition prediction_of (h : harvest) : dict :=
  prediction_dict (h_crop h) (h_acres h) (h_yield h) (h_price h).

Definition h_expected (h : harvest) : float := (h_acres h * h_yield h)%float.

Definition h_income (h : harvest) : float := (h_expected h * h_price h)%float.

(** The row of the table that is shown for a full prediction. *)
Definition display_row `{Rendering} (h : harvest) : dict :=
  [ ("Crop", VStr (h_crop h));
    ("Acres", VFloat (h_acres h));
    ("Yield per Acre", VStr (format_2f (h_yield h) ++ " kg/acre")%string);
    ("Expected Yield", VStr (format_2f (h_expected h) ++ " kg")%string);
    ("Price per kg", VStr (rupee ++ format_2f (h_price h))%string);
    ("Total Income", VStr (rupee ++ format_2f (h_income h))%string) ].

(** The table that is shown for full predictions. *)
Definition display_frame `{Rendering} (hs : list harvest) : frame :=
  {| columns := [ "Crop"; "Acres"; "Yield per Acre"; "Expected Yield";
                  "Price per kg"; "Total Income" ];
     rows := display_row <$> hs |}.

(** The same widgets with another state of the submit button. *)
Definition with_submit (b : bool) (inp : widgets) : widgets :=
  {| add_clicked := add_clicked inp;
     remove_clicked := remove_clicked inp;
     crop_input := crop_input inp;
     acres_input := acres_input inp;
     submit_button := b |}.

End TabProps.

(** ** Concrete pages and answers for the tab *)

Module TabSamples.

Import Yield YieldTab TabProps.

(** A session whose model could not be loaded. *)
Definition no_model : world :=
  {| session_llm := Some None;
     loader := Err "model file not found";
     trace := [] |}.

(** A session whose model raises on every prompt. *)
Definition failing_model : world :=
  {| session_llm := Some (Some {| complete := fun _ _ => Err "out of memory" |});
     loader := Err "model file not found";
     trace := [] |}.

(** A rendering to evaluate the tab with. Its [sum] adds from the left,
    as the builtin does up to Python 3.11; its number format, its CSV
    and its messages are stand-ins, which no property depends on. *)
#[export] Instance rendering : Rendering := {|
  format_2f := fun _ => "#.##";
  py_sum := fun xs => fold_left PrimFloat.add xs 0%float;
  to_csv := fun _ => "";
  not_in_index := fun _ => "not in index";
  not_in_axis := fun _ => "not found in axis";
  length_mismatch := fun _ _ => "Length mismatch"
|}.

(** A page with five crop rows, before the advisor is set up. *)
Definition five_rows : page :=
  {| session := Samples.answering "Price: 22";
     yield_advisor := None;
     num_crops := Some 5%Z;
     total_income_value := Some 0%float;
     screen := [] |}.

(** Rice in the first row, nothing in the others; the button for one
    more crop is clicked and the form is submitted. *)
Definition rice_form : widgets :=
  {| add_clicked := true;
     remove_clicked := false;
     crop_input := fun i => match i with 0 => " Rice " | _ => "" end;
     acres_input := fun _ => 2%float;
     submit_button := true |}.

Definition rice_harvest : harvest :=
  {| h_crop := "rice"; h_acres := 2; h_yield := 1162.5; h_price := 22 |}.

Definition mixed_predictions : list dict :=
  [ prediction_of rice_harvest;
    error_dict "quinoa" 1 "Could not determine yield or price" ].

End TabSamples.

(** ** Predicates for the cached lookups *)

Module LookupProps.

(** The addresses requested over HTTP, oldest first. *)
Definition requests (t : list Location.event) : list string :=
  omap (fun e => match e with
                 | Location.Http_get url _ => Some url
                 | _ => None
                 end) t.

(** The query [geocode_location] makes of its input. *)
Definition query_for `{Unicode.Database} (location_input : Unicode.text)
  : Unicode.text :=
  if Unicode.isdigit location_input && Nat.eqb (Unicode.len location_input) 6
  then (location_input ++ Unicode.of_ascii ", India")%list
  else location_input.

End LookupProps.

(** * Properties *)

Import Props.
Local Open Scope list_scope.

(** ** The text functions on sample inputs *)

Section Sanity.

Example strip_sample : Py.strip "  Rice
 " = "Rice".
Proof. reflexivity. Qed.

Example lower_sample : Py.lower " WhEaT 9" = " wheat 9".
Proof. reflexivity. Qed.

Example split_sample :
  Py.split Py.newline "Yield: 1
Price: 2
" = ["Yield: 1"; "Price: 2"; ""].
Proof. reflexivity. Qed.

Example split_empty_sample : Py.split Py.newline "" = [""].
Proof. reflexivity. Qed.

Example replace_sample : Py.replace "Yield:" "" "Yield: 12 Yield:3" = " 12 3".
Proof. reflexivity. Qed.

Example search_price_sample :
  (Yield.search_price "the Price: is Price:   25.5.3 Rs",
   Yield.search_price "Price: 22",
   Yield.search_price "Price: n/a")
  = (Some "25.5", Some "22", None).
Proof. reflexivity. Qed.

Example float_of_decimal_sample :
  (Decimal.float_of_decimal "22", Decimal.float_of_decimal " 0.1 ",
   Decimal.float_of_decimal "-12.50")
  = (Ok 22%float, Ok 0.1%float, Ok (-12.5)%float).
Proof. vm_compute. reflexivity. Qed.

End Sanity.

(** ** Text normalisation *)

Section Normalisation.

Lemma is_space_lower_char c : Py.is_space (Py.lower_char c) = Py.is_space c.
Proof. destruct c as [[] [] [] [] [] [] [] []]; reflexivity. Qed.

Lemma lower_char_idem c : Py.lower_char (Py.lower_char c) = Py.lower_char c.
Proof. destruct c as [[] [] [] [] [] [] [] []]; reflexivity. Qed.

Lemma lower_idem s : Py.lower (Py.lower s) = Py.lower s.
Proof. induction s as [|c s IH]; simpl; [done|]. by rewrite lower_char_idem, IH. Qed.

Lemma is_empty_lower s : Py.is_empty (Py.lower s) = Py.is_empty s.
Proof. by destruct s. Qed.

Lemma lower_lstrip s : Py.lower (Py.lstrip s) = Py.lstrip (Py.lower s).
Proof.
  induction s as [|c s IH]; simpl; [done|].
  rewrite is_space_lower_char. by destruct (Py.is_space c).
Qed.

Lemma lower_rstrip s : Py.lower (Py.rstrip s) = Py.rstrip (Py.lower s).
Proof.
  induction s as [|c s IH]; simpl; [done|].
  rewrite is_space_lower_char, <- IH, is_empty_lower.
  by destruct (Py.is_space c && Py.is_empty (Py.rstrip s)).
Qed.

Lemma lower_strip s : Py.lower (Py.strip s) = Py.strip (Py.lower s).
Proof. unfold Py.strip. by rewrite lower_rstrip, lower_lstrip. Qed.

Lemma lstrip_head_kept s : head_kept (Py.lstrip s).
Proof.
  induction s as [|c s IH]; simpl; [done|].
  destruct (Py.is_space c) eqn:E; [done|]. exact E.
Qed.

Lemma rstrip_head_kept s : head_kept s -> head_kept (Py.rstrip s).
Proof.
  destruct s as [|c s]; simpl; [done|]. intros Hc.
  by destruct (Py.is_space c && Py.is_empty (Py.rstrip s)).
Qed.

Lemma lstrip_fixed s : head_kept s -> Py.lstrip s = s.
Proof. destruct s as [|c s]; simpl; [done|]. by intros ->. Qed.

Lemma rstrip_idem s : Py.rstrip (Py.rstrip s) = Py.rstrip s.
Proof.
  induction s as [|c s IH]; simpl; [done|].
  destruct (Py.is_space c && Py.is_empty (Py.rstrip s)) eqn:E; simpl; [done|].
  by rewrite IH, E.
Qed.

Lemma strip_idem s : Py.strip (Py.strip s) = Py.strip s.
Proof.
  unfold Py.strip.
  rewrite (lstrip_fixed (Py.rstrip (Py.lstrip s))).
  - apply rstrip_idem.
  - apply rstrip_head_kept, lstrip_head_kept.
Qed.

Lemma normalize_idem crop : Yield.normalize (Yield.normalize crop) = Yield.normalize crop.
Proof.
  unfold Yield.normalize.
  by rewrite <- lower_strip, strip_idem, lower_strip, lower_idem.
Qed.

End Normalisation.

(** ** The yield advisor *)

Section YieldFacts.

Context `{Yield.Runtime}.
Import Yield.

#[local] Arguments price_prompt : simpl never.
#[local] Arguments combined_prompt : simpl never.
#[local] Arguments Py.strip : simpl never.
#[local] Arguments search_price : simpl never.
#[local] Arguments String.append : simpl never.

(** Unfolds one run of the advisor down to the oracles. *)
Ltac run :=
  unfold get_yield_prediction, get_price_from_llm, get_recommendations,
    parse_response, ensure_llm, initialize_llm, load_model, invoke,
    session_get_llm, session_has_llm, session_set_llm, emit, try_except,
    bind, ret, lift;
  cbn [session_llm loader trace fst snd].

Ltac settle := cbn [session_llm loader trace fst snd]; rewrite <- ?app_assoc.

Lemma is_empty_false s : s <> "" -> Py.is_empty s = false.
Proof. by destruct s. Qed.

Lemma new_YieldAdvisorLLM_value w : (new_YieldAdvisorLLM w).1 = Ok advisor.
Proof.
  unfold new_YieldAdvisorLLM. destruct w as [[v|] [handle|msg] tr]; run; done.
Qed.

(** The price path: its entry, then at most the price prompt and a
    warning; it returns, or raises for want of the session key. *)
Lemma get_price_from_llm_run crop w :
  exists evs,
    trace (get_price_from_llm crop w).2
    = trace w ++ Enter_get_price_from_llm crop :: evs
    /\ Forall (price_path_event crop) evs
    /\ (model_calls evs = [] \/
        model_calls evs = [(price_prompt crop, price_sampling)]).
Proof.
  destruct w as [[[handle|]|] ld tr]; run.
  - destruct (complete handle _ _) as [text|msg]; settle.
    + destruct (search_price _) as [g|]; [destruct (py_float g)|]; settle.
      all: eexists; split; [reflexivity|]; split; [repeat constructor|by right].
    + eexists; split; [reflexivity|]; split; [repeat constructor|by right].
  - exists []. by repeat split; [|left].
  - exists []. by repeat split; [|left].
Qed.

(** A line that starts with neither label leaves both values as they
    are; a label that no line starts with leaves its value as it is. *)
Lemma parse_lines_missing lines : forall y p y' p',
  parse_lines lines y p = Ok (y', p') ->
  (existsb (Py.startswith "Yield:") lines = false -> y' = y)
  /\ (existsb (Py.startswith "Price:") lines = false -> p' = p).
Proof.
  induction lines as [|line rest IH]; intros y p y' p' Hrun.
  - simpl in Hrun. by inversion Hrun.
  - cbn [parse_lines existsb] in *.
    destruct (Py.startswith "Yield:" line) eqn:Ey.
    + destruct (py_float _) as [v|msg]; [|done]. cbn [result_bind] in Hrun.
      destruct (IH _ _ _ _ Hrun) as [_ Hp]. split; [done|].
      destruct (Py.startswith "Price:" line); [done|]. exact Hp.
    + destruct (Py.startswith "Price:" line) eqn:Ep.
      * destruct (py_float _) as [v|msg]; [|done]. cbn [result_bind] in Hrun.
        destruct (IH _ _ _ _ Hrun) as [Hy _]. split; [exact Hy|done].
      * exact (IH _ _ _ _ Hrun).
Qed.

(** [parse_response] never raises, and a value whose line is missing
    is [None]. *)
Lemma parse_response_missing response w :
  exists y p,
    (parse_response response w).1 = Ok (y, p)
    /\ (has_line "Yield:" response = false -> y = None)
    /\ (has_line "Price:" response = false -> p = None).
Proof.
  run. unfold has_line.
  destruct (parse_lines _ None None) as [[y p]|msg] eqn:E; settle.
  - exists y, p. split; [done|]. exact (parse_lines_missing _ _ _ _ _ E).
  - by exists None, None.
Qed.

Lemma has_line_strip label text :
  has_line label (Py.strip text) = has_line label text.
Proof. unfold has_line. by rewrite strip_idem. Qed.

(** The combined path: its entry, then at most the pause, the combined
    prompt and a warning. What it returns is what [parse_response]
    makes of the model's text. *)
Lemma get_recommendations_run crop w :
  exists evs,
    trace (get_recommendations crop w).2
    = trace w ++ Enter_get_recommendations crop :: evs
    /\ Forall (combined_path_event crop) evs
    /\ (model_calls evs = [] \/
        model_calls evs = [(combined_prompt crop, combined_sampling)]).
Proof.
  destruct w as [[[handle|]|] ld tr]; run.
  - destruct (complete handle _ _) as [text|msg]; settle.
    + destruct (parse_lines _ None None) as [yp|msg]; settle.
      all: eexists; split; [reflexivity|]; split; [repeat constructor|by right].
    + eexists; split; [reflexivity|]; split; [repeat constructor|by right].
  - exists []. by repeat split; [|left].
  - exists []. by repeat split; [|left].
Qed.

Lemma get_recommendations_value crop w :
  (exists yp, (get_recommendations crop w).1 = Ok yp
     /\ (forall y p, yp = (Some y, Some p) ->
         exists handle text,
           session_llm w = Some (Some handle)
           /\ complete handle (combined_prompt crop) combined_sampling = Ok text
           /\ (parse_response text w).1 = Ok (Some y, Some p))
     /\ (forall handle text,
           session_llm w = Some (Some handle) ->
           complete handle (combined_prompt crop) combined_sampling = Ok text ->
           (has_line "Yield:" text = false -> yp.1 = None)
           /\ (has_line "Price:" text = false -> yp.2 = None)))
  \/ (session_llm w = None
      /\ (get_recommendations crop w).1 = Err (missing_key "llm")).
Proof.
  destruct w as [[[handle|]|] ld tr]; run.
  - left. destruct (complete handle _ _) as [text|msg] eqn:Ec; settle.
    + rewrite strip_idem.
      destruct (parse_lines _ None None) as [[y p]|msg] eqn:E; settle.
      * exists (y, p). split; [done|]. split.
        -- intros y0 p0 [= -> ->]. exists handle, text. by rewrite E.
        -- intros h t [= <-]. rewrite Ec. intros [= <-].
           rewrite <- !(has_line_strip _ text). unfold has_line.
           rewrite strip_idem. exact (parse_lines_missing _ _ _ _ _ E).
      * exists (None, None). split; [done|]. split; [done|]. by intros.
    + exists (None, None). split; [done|]. split; [done|]. by intros.
  - left. exists (None, None). split; [done|]. split; [done|]. by intros.
  - right. done.
Qed.

(** What the price path leaves as the result: the full prediction with
    the table's yield when the model's text has a price that is found
    and read, and otherwise an error whose text is the one of the price
    path or, without the session key, the one of the missing key. *)
Lemma known_crop_outcome self crop acres w y d evs :
  crop <> "" ->
  static_yields self !! normalize crop = Some y ->
  (get_yield_prediction self crop acres w).1 = Ok (Some d) ->
  trace (get_yield_prediction self crop acres w).2
  = trace w ++ Enter_get_price_from_llm (normalize crop) :: evs ->
  (forall handle text group1 price,
     session_llm w = Some (Some handle) ->
     complete handle (price_prompt (normalize crop)) price_sampling = Ok text ->
     search_price (Py.strip text) = Some group1 ->
     py_float group1 = Ok price ->
     d = prediction_dict (normalize crop) acres y price
     /\ evs = [Model_call (price_prompt (normalize crop)) price_sampling])
  /\ (forall msg,
        d = error_dict (normalize crop) acres msg ->
        msg = "Could not determine price"
        \/ (session_llm w = None /\ msg = missing_key "llm")).
Proof.
  intros Hne Hy. unfold get_yield_prediction.
  rewrite (is_empty_false _ Hne), Hy.
  destruct w as [[[handle|]|] ld tr]; run.
  - destruct (complete handle _ _) as [text|msg] eqn:Etext; settle.
    + destruct (search_price _) as [g|] eqn:Eg;
        [destruct (py_float g) as [price|msg] eqn:Eprice|]; settle;
        intros [= <-] Ht%app_inv_head; injection Ht as <-.
      * split.
        -- intros h t g' p' [= <-] Ht'. rewrite Ht' in Etext.
           injection Etext as <-. rewrite Eg. intros [= <-].
           rewrite Eprice. by intros [= <-].
        -- intros msg. discriminate.
      * split.
        -- intros h t g' p' [= <-] Ht'. rewrite Ht' in Etext.
           injection Etext as <-. rewrite Eg. intros [= <-].
           rewrite Eprice. discriminate.
        -- intros msg' [= <-]. by left.
      * split.
        -- intros h t g' p' [= <-] Ht'. rewrite Ht' in Etext.
           injection Etext as <-. rewrite Eg. discriminate.
        -- intros msg' [= <-]. by left.
    + intros [= <-] Ht%app_inv_head; injection Ht as <-. split.
      * intros h t g' p' [= <-] Ht'. rewrite Ht' in Etext. discriminate.
      * intros msg' [= <-]. by left.
  - intros [= <-] _. split; [discriminate|].
    intros msg' [= <-]. by left.
  - intros [= <-] _. split; [discriminate|].
    intros msg' [= <-]. right. by cbn [session_llm].
Qed.

End YieldFacts.

Section YieldClaims.

Context `{Yield.Runtime}.
Import Yield.

Lemma empty_not_in_table : yields_per_hectare !! "" = None.
Proof. vm_compute. reflexivity. Qed.

Lemma advisor_lookup crop :
  static_yields advisor !! crop = per_acre <$> yields_per_hectare !! crop.
Proof. unfold advisor. cbn [static_yields]. apply lookup_fmap. Qed.

Lemma prediction_dict_complete crop acres y p :
  complete_prediction (prediction_dict crop acres y p).
Proof. by repeat split. Qed.

Lemma error_dict_failed crop acres msg :
  failed_prediction (error_dict crop acres msg).
Proof. by repeat split. Qed.

Lemma price_path_no_recommendations crop evs :
  Forall (price_path_event crop) evs ->
  forall c, Enter_get_recommendations c ∉ evs.
Proof.
  intros Hall c Hin. rewrite Forall_forall in Hall. exact (Hall _ Hin).
Qed.

(** A crop of the table: the yield is the table's, the model is asked
    for the price only. *)
Lemma known_crop_run self crop acres w y :
  crop <> "" ->
  static_yields self !! normalize crop = Some y ->
  exists d evs,
    (get_yield_prediction self crop acres w).1 = Ok (Some d)
    /\ trace (get_yield_prediction self crop acres w).2
       = trace w ++ Enter_get_price_from_llm (normalize crop) :: evs
    /\ Forall (price_path_event (normalize crop)) evs
    /\ (model_calls evs = [] \/
        model_calls evs = [(price_prompt (normalize crop), price_sampling)])
    /\ ((exists price, d = prediction_dict (normalize crop) acres y price)
        \/ (exists msg, d = error_dict (normalize crop) acres msg)).
Proof.
  intros Hne Hy.
  destruct (get_price_from_llm_run (normalize crop) w) as (evs & Ht & Hall & Hcalls).
  unfold get_yield_prediction. rewrite (is_empty_false _ Hne), Hy.
  unfold try_except, bind, ret.
  destruct (get_price_from_llm (normalize crop) w) as [[[price|]|msg] w'];
    cbn [fst snd] in *; eexists _, evs; (split; [reflexivity|]);
    repeat split; eauto.
Qed.

(** A crop that is not in the table: one combined call, and an error
    unless that call gave both values. *)
Lemma unknown_crop_run self crop acres w :
  crop <> "" ->
  static_yields self !! normalize crop = None ->
  exists d evs,
    (get_yield_prediction self crop acres w).1 = Ok (Some d)
    /\ trace (get_yield_prediction self crop acres w).2
       = trace w ++ Enter_get_recommendations (normalize crop) :: evs
    /\ Forall (combined_path_event (normalize crop)) evs
    /\ (model_calls evs = [] \/
        model_calls evs = [(combined_prompt (normalize crop), combined_sampling)])
    /\ ((exists y p,
           d = prediction_dict (normalize crop) acres y p
           /\ exists handle text,
                session_llm w = Some (Some handle)
                /\ complete handle (combined_prompt (normalize crop))
                     combined_sampling = Ok text
                /\ (parse_response text w).1 = Ok (Some y, Some p))
        \/ (exists msg, d = error_dict (normalize crop) acres msg))
    /\ (forall handle text,
          session_llm w = Some (Some handle) ->
          complete handle (combined_prompt (normalize crop)) combined_sampling
          = Ok text ->
          has_line "Yield:" text = false \/ has_line "Price:" text = false ->
          d = error_dict (normalize crop) acres
                "Could not determine yield or price").
Proof.
  intros Hne Hy.
  destruct (get_recommendations_run (normalize crop) w) as (evs & Ht & Hall & Hcalls).
  pose proof (get_recommendations_value (normalize crop) w) as Hval.
  unfold get_yield_prediction. rewrite (is_empty_false _ Hne), Hy.
  unfold try_except, bind, ret.
  destruct (get_recommendations (normalize crop) w) as [[[[y|] [p|]]|msg] w'];
    cbn [fst snd] in *; eexists _, evs; (split; [reflexivity|]);
    (split; [exact Ht|]); (split; [exact Hall|]); (split; [exact Hcalls|]).
  - destruct Hval as [(yp & [= <-] & Hboth & Hmiss)|[_ [=]]]. split.
    + left. exists y, p. split; [done|]. by apply Hboth.
    + intros handle text Hs Hc Hno.
      destruct (Hmiss _ _ Hs Hc) as [Hy' Hp']. cbn [fst snd] in *.
      destruct Hno as [Hno|Hno]; [by specialize (Hy' Hno)|by specialize (Hp' Hno)].
  - split; [right; by eexists|done].
  - split; [right; by eexists|done].
  - split; [right; by eexists|done].
  - destruct Hval as [(yp & [=] & _)|[Hs _]]. split; [right; by eexists|].
    intros handle text Hs'. congruence.
Qed.

Lemma get_yield_prediction_shape self crop acres w :
  crop <> "" ->
  exists d,
    (get_yield_prediction self crop acres w).1 = Ok (Some d)
    /\ ((exists y p, d = prediction_dict (normalize crop) acres y p)
        \/ (exists msg, d = error_dict (normalize crop) acres msg)).
Proof.
  intros Hne. destruct (static_yields self !! normalize crop) as [y|] eqn:Hy.
  - destruct (known_crop_run self crop acres w y Hne Hy)
      as (d & evs & Hd & _ & _ & _ & [[p ->]|[msg ->]]); eauto 6.
  - destruct (unknown_crop_run self crop acres w Hne Hy)
      as (d & evs & Hd & _ & _ & _ & [(y & p & -> & _)|[msg ->]] & _); eauto 6.
Qed.

(** The crop name may be given in any case and with white space around
    it, as long as something is left of it. *)
Lemma get_yield_prediction_normalized self crop acres w :
  Py.is_empty (normalize crop) = Py.is_empty crop ->
  get_yield_prediction self (normalize crop) acres w
  = get_yield_prediction self crop acres w.
Proof.
  intros He. unfold get_yield_prediction. by rewrite He, normalize_idem.
Qed.

(** C1. For a crop of the static yield table (looked up after
    lowercasing and stripping), [get_yield_prediction] enters
    [get_price_from_llm] and never [get_recommendations], and the only
    prompt the model may see is the price prompt. The yield it uses is
    the table's value for the hectare divided by 2.47105: whenever the
    model's text has a price the pattern finds and [float] reads, the
    result is the full prediction with that yield and that price, after
    the one price prompt. Any other result is an error without a
    number, which says that no price was determined or, in a session
    without the key [llm], that the key is missing. *)
Theorem known_crop_price_path_only crop acres w per_hectare :
  yields_per_hectare !! normalize crop = Some per_hectare ->
  exists d evs,
    (get_yield_prediction advisor crop acres w).1 = Ok (Some d)
    /\ trace (get_yield_prediction advisor crop acres w).2
       = trace w ++ Enter_get_price_from_llm (normalize crop) :: evs
    /\ (forall c, Enter_get_recommendations c ∉ evs)
    /\ (forall c, Enter_get_price_from_llm c ∉ evs)
    /\ (model_calls evs = [] \/
        model_calls evs = [(price_prompt (normalize crop), price_sampling)])
    /\ ((exists price,
           d = prediction_dict (normalize crop) acres
                 (PrimFloat.of_uint63 (Uint63.of_Z per_hectare) / 2.47105)%float
                 price)
        \/ (exists msg, d = error_dict (normalize crop) acres msg))
    /\ (forall handle text group1 price,
          session_llm w = Some (Some handle) ->
          complete handle (price_prompt (normalize crop)) price_sampling = Ok text ->
          search_price (Py.strip text) = Some group1 ->
          py_float group1 = Ok price ->
          d = prediction_dict (normalize crop) acres
                (PrimFloat.of_uint63 (Uint63.of_Z per_hectare) / 2.47105)%float
                price
          /\ evs = [Model_call (price_prompt (normalize crop)) price_sampling])
    /\ (forall msg,
          d = error_dict (normalize crop) acres msg ->
          msg = "Could not determine price"
          \/ (session_llm w = None /\ msg = missing_key "llm")).
Proof.
  intros Hh.
  assert (crop <> "") as Hne.
  { intros ->. change (normalize "") with "" in Hh.
    rewrite empty_not_in_table in Hh. discriminate. }
  assert (static_yields advisor !! normalize crop = Some (per_acre per_hectare)) as Hy.
  { by rewrite advisor_lookup, Hh. }
  destruct (known_crop_run advisor crop acres w _ Hne Hy)
    as (d & evs & Hd & Ht & Hall & Hcalls & Hshape).
  destruct (known_crop_outcome advisor crop acres w _ d evs Hne Hy Hd Ht)
    as [Hfull Herr].
  exists d, evs. repeat split; try done.
  - by apply (price_path_no_recommendations (normalize crop)).
  - intros c Hin. rewrite Forall_forall in Hall. exact (Hall _ Hin).
  - by apply (Hfull handle text group1 price).
  - by apply (Hfull handle text group1 price).
Qed.

(** C2, as the code has it. For a crop that is not in the table, yield
    and price come from one combined model call, through
    [get_recommendations]. [parse_response] gives [None] for a value
    whose line is missing and keeps the other one, so its pair may be
    partial; [get_yield_prediction] then reports the error and no
    number. *)
Theorem unknown_crop_single_combined_call self crop acres w :
  crop <> "" ->
  static_yields self !! normalize crop = None ->
  (exists d evs,
     (get_yield_prediction self crop acres w).1 = Ok (Some d)
     /\ trace (get_yield_prediction self crop acres w).2
        = trace w ++ Enter_get_recommendations (normalize crop) :: evs
     /\ Forall (combined_path_event (normalize crop)) evs
     /\ (model_calls evs = [] \/
         model_calls evs
         = [(combined_prompt (normalize crop), combined_sampling)])
     /\ ((exists y p,
            d = prediction_dict (normalize crop) acres y p
            /\ exists handle text,
                 session_llm w = Some (Some handle)
                 /\ complete handle (combined_prompt (normalize crop))
                      combined_sampling = Ok text
                 /\ (parse_response text w).1 = Ok (Some y, Some p))
         \/ (exists msg, d = error_dict (normalize crop) acres msg))
     /\ (forall handle text,
           session_llm w = Some (Some handle) ->
           complete handle (combined_prompt (normalize crop)) combined_sampling
           = Ok text ->
           has_line "Yield:" text = false \/ has_line "Price:" text = false ->
           d = error_dict (normalize crop) acres
                 "Could not determine yield or price"
           /\ failed_prediction d))
  /\ (forall response,
        exists y p,
          (parse_response response w).1 = Ok (y, p)
          /\ (has_line "Yield:" response = false -> y = None)
          /\ (has_line "Price:" response = false -> p = None)).
Proof.
  intros Hne Hy. split.
  - destruct (unknown_crop_run self crop acres w Hne Hy)
      as (d & evs & Hd & Ht & Hall & Hcalls & Hshape & Hmiss).
    exists d, evs. do 5 (split; [done|]).
    intros handle text Hs Hc Hno. rewrite (Hmiss _ _ Hs Hc Hno).
    split; [reflexivity|apply error_dict_failed].
  - intros response. apply parse_response_missing.
Qed.

(** C4. For a crop name that is not empty, the dictionary returned has
    yield, price and income and no error, or an error and none of the
    three. *)
Theorem prediction_all_or_error self crop acres w :
  crop <> "" ->
  exists d,
    (get_yield_prediction self crop acres w).1 = Ok (Some d)
    /\ (complete_prediction d \/ failed_prediction d)
    /\ ~ (complete_prediction d /\ failed_prediction d).
Proof.
  intros Hne.
  destruct (get_yield_prediction_shape self crop acres w Hne)
    as (d & Hd & [(y & p & ->)|(msg & ->)]); eexists; split; try exact Hd.
  - split; [left; apply prediction_dict_complete|].
    intros [_ [He _]]. discriminate.
  - split; [right; apply error_dict_failed|].
    intros [(Hy & _) _]. discriminate.
Qed.

(** The guard comes before the normalisation. A crop name of one space
    is not empty, so it passes the guard, is normalised to the empty
    name and sent down the combined path; its normal form, the empty
    name, is turned away at the guard with nothing done. *)
Lemma blank_crop_reaches_model acres w :
  get_yield_prediction advisor (normalize " ") acres w = (Ok None, w)
  /\ exists d evs,
       (get_yield_prediction advisor " " acres w).1 = Ok (Some d)
       /\ dict_get "crop" d = Some (VStr "")
       /\ trace (get_yield_prediction advisor " " acres w).2
          = trace w ++ Enter_get_recommendations "" :: evs.
Proof.
  split; [reflexivity|].
  assert (static_yields advisor !! normalize " " = None) as Hy.
  { rewrite advisor_lookup. change (normalize " ") with "".
    by rewrite empty_not_in_table. }
  destruct (unknown_crop_run advisor " " acres w ltac:(done) Hy)
    as (d & evs & Hd & Ht & _ & _ & Hshape & _).
  exists d, evs. split; [exact Hd|]. split; [|exact Ht].
  destruct Hshape as [(y & p & -> & _)|(msg & ->)]; reflexivity.
Qed.

(** C9, with the precondition it needs. For a crop name of which
    lowercasing and stripping leave something, the call on the name and
    the call on its normal form are the same run: they return the same
    and leave the same world. Both take the branch the table decides at
    the normal form, the price path for a crop of the table and the
    combined path for any other, and a prediction of the table's branch
    carries the table's yield in both. The names the tab passes,
    stripped, lowercased and not empty, are of this kind. *)
Theorem case_and_space_invariant self crop acres w :
  normalize crop <> "" ->
  let given := get_yield_prediction self crop acres w in
  let normal := get_yield_prediction self (normalize crop) acres w in
  given = normal
  /\ (forall y,
        static_yields self !! normalize crop = Some y ->
        exists d evs,
          given.1 = Ok (Some d) /\ normal.1 = Ok (Some d)
          /\ trace given.2
             = trace w ++ Enter_get_price_from_llm (normalize crop) :: evs
          /\ trace normal.2
             = trace w ++ Enter_get_price_from_llm (normalize crop) :: evs
          /\ (forall c, Enter_get_recommendations c ∉ evs)
          /\ (forall v, dict_get "yield_per_acre" d = Some v -> v = VFloat y))
  /\ (static_yields self !! normalize crop = None ->
        exists d evs,
          given.1 = Ok (Some d) /\ normal.1 = Ok (Some d)
          /\ trace given.2
             = trace w ++ Enter_get_recommendations (normalize crop) :: evs
          /\ trace normal.2
             = trace w ++ Enter_get_recommendations (normalize crop) :: evs
          /\ (forall c, Enter_get_price_from_llm c ∉ evs))
  /\ (forall typed,
        Py.lower (Py.strip typed) <> "" ->
        normalize (Py.lower (Py.strip typed)) <> "").
Proof.
  intros Hne given normal.
  assert (crop <> "") as Hc by (by intros ->).
  assert (given = normal) as Hsame.
  { subst given normal. symmetry. apply get_yield_prediction_normalized.
    by rewrite (is_empty_false _ Hne), (is_empty_false _ Hc). }
  split; [exact Hsame|]. rewrite <- Hsame. subst given. split; [|split].
  - intros y Hy.
    destruct (known_crop_run self crop acres w y Hc Hy)
      as (d & evs & Hd & Ht & Hall & _ & Hshape).
    exists d, evs. repeat split; try done.
    + by apply (price_path_no_recommendations (normalize crop)).
    + intros v. destruct Hshape as [(price & ->)|(msg & ->)]; cbn.
      * by intros [= <-].
      * discriminate.
  - intros Hy.
    destruct (unknown_crop_run self crop acres w Hc Hy)
      as (d & evs & Hd & Ht & Hall & _).
    exists d, evs. repeat split; try done.
    intros c Hin. rewrite Forall_forall in Hall. exact (Hall _ Hin).
  - intros typed Hleft.
    assert (normalize (Py.lower (Py.strip typed)) = Py.lower (Py.strip typed))
      as ->; [|exact Hleft].
    unfold normalize. by rewrite lower_idem, lower_strip, strip_idem.
Qed.

End YieldClaims.

(** ** Comparisons of binary64 numbers with zero *)

Section FloatOrder.

Local Open Scope float_scope.

Lemma Prim2SF_zero : Prim2SF 0 = S754_zero false.
Proof. vm_compute. reflexivity. Qed.

Lemma ltb_zero_leb x : (0 <? x) = true -> (0 <=? x) = true.
Proof.
  rewrite FloatAxioms.ltb_spec, FloatAxioms.leb_spec, Prim2SF_zero. unfold SFltb, SFleb.
  by destruct (SFcompare _ _) as [[]|].
Qed.

Lemma ltb_zero_eqb x : (0 <? x) = true -> (x =? 0) = false.
Proof.
  rewrite FloatAxioms.ltb_spec, FloatAxioms.eqb_spec, Prim2SF_zero. unfold SFltb, SFeqb.
  by destruct (Prim2SF x) as [[]|[]| |[] m e].
Qed.

Lemma eqb_zero_ltb x : (x =? 0) = true -> (0 <? x) = false.
Proof.
  intros Heq. destruct (0 <? x) eqn:Hlt; [|done].
  by rewrite (ltb_zero_eqb _ Hlt) in Heq.
Qed.

End FloatOrder.

(** ** The profit dashboard *)

Section DashboardFacts.

Import Dashboard.
Local Open Scope float_scope.

Lemma row_expense_admitted now r e : row_expense now r = Some e -> admitted e.
Proof.
  unfold row_expense, admitted.
  destruct (Py.is_empty (name r)) eqn:En; [done|].
  destruct (0 <? row_amount r) eqn:Ea; [|done].
  intros [= <-]. cbn [amount category]. repeat split; [done|by apply ltb_zero_leb|].
  intros Hn. by rewrite Hn in En.
Qed.

Lemma row_expense_skipped now r :
  (row_amount r =? 0) = true \/ name r = "" -> row_expense now r = None.
Proof.
  unfold row_expense. intros [Hz| ->]; [|done].
  rewrite (eqb_zero_ltb _ Hz). by rewrite andb_false_r.
Qed.

Lemma temp_expenses_admitted inputs clock :
  Forall admitted (temp_expenses inputs clock).
Proof.
  apply Forall_forall. intros e He. unfold temp_expenses in He.
  apply list_elem_of_omap in He as (i & _ & Hrow).
  exact (row_expense_admitted _ _ _ Hrow).
Qed.

Lemma expense_form_admitted inputs clock submitted expenses :
  Forall admitted expenses ->
  Forall admitted (expense_form inputs clock submitted expenses).1.
Proof.
  intros Hall. unfold expense_form.
  destruct (submitted && _); cbn [fst]; [|done].
  apply Forall_app. split; [done|apply temp_expenses_admitted].
Qed.

Lemma expense_form_no_error inputs clock submitted expenses :
  Forall (fun n => severity n <> Error)
    (expense_form inputs clock submitted expenses).2.
Proof.
  unfold expense_form. destruct (submitted && _); cbn [snd]; by repeat constructor.
Qed.

Lemma render_admitted inputs clock submitted clear_clicked total_yield expenses :
  Forall admitted expenses ->
  Forall admitted
    (render_profit_dashboard_tab inputs clock submitted clear_clicked
       total_yield expenses).1.1.
Proof.
  intros Hall. unfold render_profit_dashboard_tab.
  pose proof (expense_form_admitted inputs clock submitted _ Hall) as Hform.
  destruct (expense_form inputs clock submitted expenses) as [[|e es] notices];
    cbn [fst] in *; [done|].
  by destruct clear_clicked.
Qed.

Lemma reachable_admitted expenses : reachable expenses -> Forall admitted expenses.
Proof.
  induction 1 as [|inputs clock submitted clear_clicked total_yield expenses _ IH].
  - constructor.
  - by apply render_admitted.
Qed.

(** C8. Every expense the session list can hold has a strictly
    positive amount, hence a non-negative one, and a category; the form
    keeps it so, skips a row whose amount is zero or whose category is
    not chosen, and reports no error for it. *)
Theorem stored_expenses_positive expenses :
  reachable expenses ->
  Forall admitted expenses
  /\ (forall inputs clock submitted,
        Forall admitted (expense_form inputs clock submitted expenses).1
        /\ Forall (fun n => severity n <> Error)
             (expense_form inputs clock submitted expenses).2)
  /\ (forall now r,
        (row_amount r =? 0) = true \/ name r = "" -> row_expense now r = None).
Proof.
  intros Hreach. pose proof (reachable_admitted _ Hreach) as Hall.
  split; [exact Hall|]. split.
  - intros inputs clock submitted. split.
    + by apply expense_form_admitted.
    + apply expense_form_no_error.
  - apply row_expense_skipped.
Qed.

Lemma profit_margin_defined profit total_yield :
  exists margin,
    profit_margin profit total_yield = Ok margin
    /\ ((0 <? total_yield) = false -> margin = 0)
    /\ ((0 <? total_yield) = true -> margin = profit / total_yield * 100).
Proof.
  unfold profit_margin, py_div. destruct (0 <? total_yield) eqn:Hpos.
  - rewrite (ltb_zero_eqb _ Hpos). cbn [result_bind]. by eexists.
  - by eexists.
Qed.

(** C10. The margin never divides by zero: [compute_metrics] returns
    for every expense list and every revenue, and where the revenue is
    not strictly positive the margin is 0, with no division made. *)
Theorem profit_margin_division_safe expenses total_yield :
  exists m,
    compute_metrics expenses total_yield = Ok m
    /\ ((0 <? total_yield) = false -> m_profit_margin m = 0)
    /\ ((0 <? total_yield) = true ->
        m_profit_margin m = m_profit m / total_yield * 100)
    /\ (forall profit,
          (0 <? total_yield) = false ->
          profit_margin profit total_yield = Ok 0).
Proof.
  unfold compute_metrics.
  destruct (profit_margin_defined (total_yield - total_expenses expenses) total_yield)
    as (margin & -> & Hzero & Hpos).
  cbn [result_bind]. eexists. split; [reflexivity|]. cbn [m_profit_margin m_profit].
  split; [exact Hzero|]. split; [exact Hpos|].
  intros profit Hle. unfold profit_margin. by rewrite Hle.
Qed.


End DashboardFacts.

(** ** The location resolver *)

Section LocationFacts.

Context `{Unicode.Database}.
Import Location.

Ltac run :=
  unfold get_location_from_ip, geocode_location, requests_get, geocode, emit,
    try_except, bind, ret, lift, unresolved;
  cbn [http geocoder trace fst snd].

Lemma forallb_Forall {A} (f : A -> bool) (l : list A) :
  forallb f l = true <-> Forall (fun x => f x = true) l.
Proof.
  induction l as [|x l IH]; cbn [forallb].
  - split; [constructor|done].
  - rewrite andb_true_iff, Forall_cons, IH. done.
Qed.

(** The test of the code is the property of the text. *)
Lemma six_numeric_test s :
  Unicode.isdigit s && Nat.eqb (Unicode.len s) 6 = true <-> six_numeric s.
Proof.
  unfold six_numeric, Unicode.isdigit, Unicode.len.
  rewrite !andb_true_iff, Nat.eqb_eq, forallb_Forall. split.
  - intros [[_ Hd] Hl]. done.
  - intros [Hl Hd]. repeat split; try done. by destruct s.
Qed.

(** The function under the decorator sends one query. *)
Lemma geocode_location_trace location_input w :
  exists errors,
    trace (geocode_location location_input w).2
    = trace w
      ++ Geocode (if Unicode.isdigit location_input
                     && Nat.eqb (Unicode.len location_input) 6
                  then location_input ++ Unicode.of_ascii ", India"
                  else location_input) 5
      :: errors
    /\ geocode_queries errors = [].
Proof.
  run. destruct (Unicode.isdigit location_input && _); run.
  all: destruct (geocoder w _) as [[l|]|msg]; cbn [trace fst snd];
    rewrite <- ?app_assoc; eexists; split; reflexivity.
Qed.

Lemma geocode_queries_app t1 t2 :
  geocode_queries (t1 ++ t2) = geocode_queries t1 ++ geocode_queries t2.
Proof. unfold geocode_queries. apply omap_app. Qed.

Lemma geocode_queries_errors msgs : geocode_queries (St_error <$> msgs) = [].
Proof. induction msgs as [|msg msgs IH]; [done|exact IH]. Qed.

(** C3. An input of exactly six numeric characters is sent to the
    geocoder with the country appended; any other input is sent as it
    is. That one query is sent when the cache has nothing for the
    input; when it has, the cached value is returned and no query is
    sent at all. *)
Theorem geocode_query_qualified location_input a :
  let sends q :=
    geocode_queries
      (trace (Cached.world (Cached.geocode_location location_input a).2))
    = geocode_queries (trace (Cached.world a))
      ++ match Cached.geocode_cache a !! location_input with
         | Some _ => []
         | None => [q]
         end in
  (six_numeric location_input ->
   sends (location_input ++ Unicode.of_ascii ", India"))
  /\ (~ six_numeric location_input -> sends location_input).
Proof.
  cbn zeta. unfold Cached.geocode_location, Cached.cache_data.
  destruct (Cached.geocode_cache a !! location_input) as [e|].
  - cbn [snd Cached.with_world Cached.world Cached.replay trace].
    rewrite geocode_queries_app, geocode_queries_errors. done.
  - destruct (geocode_location_trace location_input (Cached.world a))
      as (errors & Ht & Hnone).
    destruct (geocode_location location_input (Cached.world a)) as [[r|msg] w'];
      cbn [fst snd Cached.with_world Cached.world] in *; rewrite Ht;
      rewrite geocode_queries_app; cbn [geocode_queries omap list_omap];
      fold (geocode_queries errors); rewrite Hnone.
    all: destruct (Unicode.isdigit location_input && _) eqn:Htest; split;
      intros Hsix; try reflexivity.
    all: try (apply six_numeric_test in Htest; done).
    all: apply six_numeric_test in Hsix; congruence.
Qed.

Context `{Runtime}.

(** What the lookup returns, read off the provider's answer. *)
Lemma get_location_from_ip_value w :
  (get_location_from_ip w).1
  = Ok match http w ip_url with
       | Err _ => (JNull, JNull, JNull)
       | Ok resp =>
           if (status_code resp =? 200)%Z then
             match json_body resp with
             | Ok (JObj members) =>
                 (default JNull (members !! "lat"),
                  default JNull (members !! "lon"),
                  JStr (format (default (JStr "") (members !! "city")) ++ ", "
                        ++ format (default (JStr "") (members !! "regionName"))
                        ++ ", "
                        ++ format (default (JStr "") (members !! "country")))%string)
             | _ => (JNull, JNull, JNull)
             end
           else (JNull, JNull, JNull)
       end.
Proof.
  unfold ip_url. run.
  destruct (http w _) as [resp|msg]; cbn [trace fst snd]; [|done].
  destruct (status_code resp =? 200)%Z; cbn [trace fst snd]; [|done].
  by destruct (json_body resp) as [[| | | | |members]|msg]; cbn [get trace fst snd].
Qed.

(** C5, as the code has it. [get_location_from_ip] never raises. On
    a transport error, on a status other than 200, on a body that does
    not decode or is no dictionary, all three components are [None].
    On a 200 response with a dictionary, latitude and longitude are
    the members found, [None] for a missing one, and the address is
    always a string: the three parts, each empty when missing, joined
    by commas. *)
Theorem ip_lookup_result w :
  (exists t, (get_location_from_ip w).1 = Ok t)
  /\ (forall msg,
        http w ip_url = Err msg ->
        (get_location_from_ip w).1 = Ok (JNull, JNull, JNull))
  /\ (forall resp,
        http w ip_url = Ok resp ->
        status_code resp <> 200%Z ->
        (get_location_from_ip w).1 = Ok (JNull, JNull, JNull))
  /\ (forall resp,
        http w ip_url = Ok resp ->
        (forall members, json_body resp <> Ok (JObj members)) ->
        (get_location_from_ip w).1 = Ok (JNull, JNull, JNull))
  /\ (forall resp members,
        http w ip_url = Ok resp ->
        status_code resp = 200%Z ->
        json_body resp = Ok (JObj members) ->
        (get_location_from_ip w).1
        = Ok (default JNull (members !! "lat"),
              default JNull (members !! "lon"),
              JStr (format (default (JStr "") (members !! "city")) ++ ", "
                    ++ format (default (JStr "") (members !! "regionName"))
                    ++ ", "
                    ++ format (default (JStr "") (members !! "country")))%string)).
Proof.
  rewrite get_location_from_ip_value. split; [by eexists|].
  split; [by intros msg ->|].
  split.
  { intros resp -> Hstatus. apply Z.eqb_neq in Hstatus. by rewrite Hstatus. }
  split.
  { intros resp -> Hbody. destruct (status_code resp =? 200)%Z; [|done].
    destruct (json_body resp) as [[| | | | |members]|msg]; try done.
    by destruct (Hbody members). }
  intros resp members -> Hstatus Hbody.
  apply Z.eqb_eq in Hstatus. by rewrite Hstatus, Hbody.
Qed.

End LocationFacts.

(** ** The table of yields *)

Section YieldTable.

Import Yield.
Local Open Scope float_scope.

(** C6. The advisor [__init__] builds holds for wheat the 3615 kg per
    hectare of the table divided by 2.47105, which is 1463 kg per
    acre to the nearest kilogram, and within 0.06 of it. *)
Theorem wheat_per_acre w :
  exists self x,
    (new_YieldAdvisorLLM w).1 = Ok self
    /\ yields_per_hectare !! "wheat" = Some 3615%Z
    /\ static_yields self !! "wheat" = Some x
    /\ x = 3615 / 2.47105
    /\ x = 1462.9408551020822
    /\ (abs (x - 1463.0) <? 0.06) = true.
Proof.
  exists advisor, (3615 / 2.47105).
  split; [apply new_YieldAdvisorLLM_value|].
  repeat split; vm_compute; reflexivity.
Qed.

End YieldTable.

(** ** The properties on concrete inputs *)

Section Evaluations.

Import Yield Samples LookupSamples.
Local Open Scope float_scope.

Lemma known_crop_price_path_only_witness :
  yields_per_hectare !! normalize " Rice " = Some 2873%Z
  /\ (get_yield_prediction (H := Decimal.runtime) advisor " Rice " 2
        (answering " Price: 22")).1
     = Ok (Some (prediction_dict "rice" 2 (2873 / 2.47105) 22))
  /\ trace (get_yield_prediction (H := Decimal.runtime) advisor " Rice " 2
              (answering " Price: 22")).2
     = [ Enter_get_price_from_llm "rice";
         Model_call (price_prompt "rice") price_sampling ].
Proof.
  split; [vm_compute; reflexivity|].
  destruct (known_crop_price_path_only (H := Decimal.runtime) " Rice " 2
              (answering " Price: 22") 2873 ltac:(vm_compute; reflexivity))
    as (d & evs & Hd & Ht & _ & _ & _ & _ & Hfull & _).
  destruct (Hfull _ " Price: 22" "22" 22%float eq_refl eq_refl
              ltac:(vm_compute; reflexivity) ltac:(vm_compute; reflexivity))
    as [-> ->].
  split; [exact Hd|exact Ht].
Defined.

(** The scenario of the specification: rice on two acres at a price of
    22. *)
Example rice_scenario :
  (get_yield_prediction (H := Decimal.runtime) advisor "rice" 2
     (answering "Price: 22")).1
  = Ok (Some (prediction_dict "rice" 2 (2873 / 2.47105) 22)).
Proof. vm_compute. reflexivity. Qed.

(** C2 as stated fails: a response with a yield line and no price line
    is parsed to a yield and [None], by [parse_response] and so by
    [get_recommendations]. *)
Lemma parse_response_partial :
  has_line "Price:" "Yield: 100" = false
  /\ (parse_response (H := Decimal.runtime) "Yield: 100" (answering "")).1
     = Ok (Some 100, None)
  /\ (get_recommendations (H := Decimal.runtime) "quinoa"
        (answering "Yield: 100")).1
     = Ok (Some 100, None)
  /\ (parse_response (H := Decimal.runtime) "Yield: 100" (answering "")).1
     <> Ok (None, None).
Proof.
  split; [reflexivity|]. split; [vm_compute; reflexivity|].
  split; [vm_compute; reflexivity|]. vm_compute. discriminate.
Qed.

Lemma unknown_crop_single_combined_call_witness :
  "Quinoa " <> ""
  /\ static_yields advisor !! normalize "Quinoa " = None
  /\ (get_yield_prediction (H := Decimal.runtime) advisor "Quinoa " 2
        (answering "Yield: 100")).1
     = Ok (Some (error_dict "quinoa" 2 "Could not determine yield or price")).
Proof.
  split; [discriminate|]. split; [vm_compute; reflexivity|].
  destruct (unknown_crop_single_combined_call (H := Decimal.runtime) advisor
              "Quinoa " 2 (answering "Yield: 100")
              ltac:(discriminate) ltac:(vm_compute; reflexivity))
    as [(d & evs & Hd & _ & _ & _ & _ & Hmiss) _].
  rewrite Hd.
  destruct (Hmiss _ "Yield: 100" eq_refl eq_refl (or_intror eq_refl)) as [-> _].
  reflexivity.
Defined.

Lemma prediction_all_or_error_witness :
  "wheat" <> ""
  /\ exists d,
       (get_yield_prediction (H := Decimal.runtime) advisor "wheat" 1.5
          (answering "Price: 27.5")).1 = Ok (Some d)
       /\ (complete_prediction d \/ failed_prediction d)
       /\ ~ (complete_prediction d /\ failed_prediction d).
Proof.
  split; [discriminate|].
  apply (prediction_all_or_error (H := Decimal.runtime) advisor "wheat" 1.5
           (answering "Price: 27.5")).
  discriminate.
Defined.

(** C9 as stated fails: a crop name of one space passes the guard, is
    normalised to the empty name and sent down the combined path, where
    the model is asked for the yield and price of no crop and the
    answer becomes a prediction; its normal form, the empty name, is
    turned away at the guard: no branch, no model call, no result. *)
Lemma blank_crop_differs :
  normalize " " = ""
  /\ (get_yield_prediction (H := Decimal.runtime) advisor " " 1
        (answering "Yield: 100
Price: 3")).1
     = Ok (Some (prediction_dict "" 1 100 3))
  /\ trace (get_yield_prediction (H := Decimal.runtime) advisor " " 1
              (answering "Yield: 100
Price: 3")).2
     = [ Enter_get_recommendations ""; Sleep 0.1;
         Model_call (combined_prompt "") combined_sampling ]
  /\ (get_yield_prediction (H := Decimal.runtime) advisor (normalize " ") 1
        (answering "Yield: 100
Price: 3")).1
     = Ok None
  /\ trace (get_yield_prediction (H := Decimal.runtime) advisor (normalize " ") 1
              (answering "Yield: 100
Price: 3")).2
     = [].
Proof. repeat split; vm_compute; reflexivity. Qed.

Lemma case_and_space_invariant_witness :
  normalize " Rice " <> ""
  /\ get_yield_prediction (H := Decimal.runtime) advisor " Rice " 2
       (answering "Price: 22")
     = get_yield_prediction (H := Decimal.runtime) advisor "rice" 2
         (answering "Price: 22")
  /\ normalize (Py.lower (Py.strip " Rice ")) <> "".
Proof.
  destruct (case_and_space_invariant (H := Decimal.runtime) advisor " Rice " 2
              (answering "Price: 22") ltac:(vm_compute; discriminate))
    as (Hsame & _ & _ & Htab).
  split; [vm_compute; discriminate|]. split; [exact Hsame|].
  apply Htab. vm_compute. discriminate.
Defined.

Lemma geocode_query_qualified_witness :
  six_numeric LookupSamples.pincode
  /\ six_numeric LookupSamples.devanagari_pincode
  /\ ~ six_numeric LookupSamples.new_delhi
  /\ geocode_queries
       (Location.trace
          (Cached.world
             (Cached.geocode_location LookupSamples.pincode
                LookupSamples.cold).2))
     = [LookupSamples.pincode ++ Unicode.of_ascii ", India"]
  /\ geocode_queries
       (Location.trace
          (Cached.world
             (Cached.geocode_location LookupSamples.devanagari_pincode
                LookupSamples.cold).2))
     = [LookupSamples.devanagari_pincode ++ Unicode.of_ascii ", India"]
  /\ geocode_queries
       (Location.trace
          (Cached.world
             (Cached.geocode_location LookupSamples.new_delhi
                LookupSamples.cold).2))
     = [LookupSamples.new_delhi].
Proof.
  assert (six_numeric LookupSamples.pincode) as Hsix.
  { split; [reflexivity|]. repeat constructor. }
  assert (six_numeric LookupSamples.devanagari_pincode) as Hdev.
  { split; [reflexivity|]. repeat constructor. }
  assert (~ six_numeric LookupSamples.new_delhi) as Hnot.
  { intros [Hlen _]. discriminate. }
  split; [exact Hsix|]. split; [exact Hdev|]. split; [exact Hnot|].
  split; [|split].
  - exact (proj1 (geocode_query_qualified LookupSamples.pincode
                    LookupSamples.cold) Hsix).
  - exact (proj1 (geocode_query_qualified LookupSamples.devanagari_pincode
                    LookupSamples.cold) Hdev).
  - exact (proj2 (geocode_query_qualified LookupSamples.new_delhi
                    LookupSamples.cold) Hnot).
Defined.

(** C5 as stated fails: the provider answers with status 200 and a
    body without the fields, and the lookup returns no coordinates and
    an address all the same. *)
Lemma ip_lookup_partial :
  failure_body !! "lat" = None
  /\ failure_body !! "city" = None
  /\ (Location.get_location_from_ip provider_fails).1
     = Ok (Location.JNull, Location.JNull, Location.JStr ", , ")
  /\ (Location.get_location_from_ip provider_fails).1
     <> Ok (Location.JNull, Location.JNull, Location.JNull).
Proof.
  split; [vm_compute; reflexivity|]. split; [vm_compute; reflexivity|].
  split; [vm_compute; reflexivity|]. vm_compute. discriminate.
Qed.

Lemma ip_lookup_result_witness :
  Location.http provider_fails Location.ip_url
  = Ok {| Location.status_code := 200;
          Location.json_body := Ok (Location.JObj failure_body) |}
  /\ (Location.get_location_from_ip provider_fails).1
     = Ok (Location.JNull, Location.JNull, Location.JStr ", , ").
Proof.
  split; [reflexivity|].
  rewrite (proj2 (proj2 (proj2 (proj2 (ip_lookup_result provider_fails)))) _
             failure_body eq_refl eq_refl eq_refl).
  vm_compute. reflexivity.
Defined.


Lemma stored_expenses_positive_witness :
  Dashboard.reachable [seeds_entry]
  /\ Forall admitted [seeds_entry].
Proof.
  assert (Dashboard.reachable [seeds_entry]) as Hreach.
  { exact (Dashboard.reach_render one_row noon true false 1000 []
             Dashboard.reach_init). }
  split; [exact Hreach|]. exact (proj1 (stored_expenses_positive _ Hreach)).
Defined.

Lemma profit_margin_division_safe_witness :
  (0 <? 0) = false
  /\ exists m,
       Dashboard.compute_metrics three_expenses 0 = Ok m
       /\ Dashboard.m_profit_margin m = 0.
Proof.
  split; [reflexivity|].
  destruct (profit_margin_division_safe three_expenses 0) as (m & Hm & Hzero & _).
  exists m. split; [exact Hm|]. apply Hzero. reflexivity.
Defined.

End Evaluations.

(** * Further properties *)

(** ** The model handle *)

Section ModelHandle.

Context `{Yield.Runtime}.
Import Yield Reading.

#[local] Arguments price_prompt : simpl never.
#[local] Arguments combined_prompt : simpl never.
#[local] Arguments Py.strip : simpl never.
#[local] Arguments search_price : simpl never.
#[local] Arguments String.append : simpl never.

Ltac run :=
  unfold get_yield_prediction, get_price_from_llm, get_recommendations,
    parse_response, ensure_llm, initialize_llm, load_model, invoke,
    session_get_llm, session_has_llm, session_set_llm, emit, try_except,
    bind, ret, lift;
  cbn [session_llm loader trace fst snd].

Lemma initialize_llm_sets_key w :
  (initialize_llm w).1 = Ok tt /\ session_llm (initialize_llm w).2 <> None.
Proof. destruct w as [[v|] [handle|msg] tr]; run; done. Qed.

(** X1. [initialize_llm] never raises and leaves the key [llm] set. A
    session that has the key is left as it is, so a second call does
    nothing; a session without it sees one attempt to load the model,
    and the key is set to the model or, with an error on the page, to
    [None]. *)
Theorem initialize_llm_once w :
  (initialize_llm w).1 = Ok tt
  /\ session_llm (initialize_llm w).2 <> None
  /\ (session_llm w <> None -> (initialize_llm w).2 = w)
  /\ initialize_llm (initialize_llm w).2 = (Ok tt, (initialize_llm w).2)
  /\ (session_llm w = None ->
      match loader w with
      | Ok handle =>
          session_llm (initialize_llm w).2 = Some (Some handle)
          /\ trace (initialize_llm w).2 = trace w ++ [Load_model]
      | Err msg =>
          session_llm (initialize_llm w).2 = Some None
          /\ trace (initialize_llm w).2
             = trace w ++ [Load_model;
                           St_error ("Error initializing LLM: " ++ msg)%string]
      end).
Proof.
  destruct w as [[v|] [handle|msg] tr]; run;
    repeat split; try done; rewrite <- ?app_assoc; done.
Qed.

(** X2. A load that failed is not tried again. In a session whose key
    [llm] holds [None], both model paths return at their guard: no
    model is loaded, no prompt is sent, and every prediction for a
    crop name that is not empty is the error of its branch. *)
Theorem failed_load_not_retried self crop acres w :
  session_llm w = Some None ->
  crop <> "" ->
  let entered e :=
    {| session_llm := Some None; loader := loader w;
       trace := trace w ++ [e] |} in
  get_price_from_llm crop w
  = (Ok None, entered (Enter_get_price_from_llm crop))
  /\ get_recommendations crop w
     = (Ok (None, None), entered (Enter_get_recommendations crop))
  /\ get_yield_prediction self crop acres w
     = match static_yields self !! normalize crop with
       | Some _ =>
           (Ok (Some (error_dict (normalize crop) acres
                        "Could not determine price")),
            entered (Enter_get_price_from_llm (normalize crop)))
       | None =>
           (Ok (Some (error_dict (normalize crop) acres
                        "Could not determine yield or price")),
            entered (Enter_get_recommendations (normalize crop)))
       end.
Proof.
  intros Hnone Hne. destruct w as [v ld tr]. cbn [session_llm] in Hnone. subst v.
  unfold get_yield_prediction. rewrite (is_empty_false _ Hne).
  destruct (static_yields self !! normalize crop); run; done.
Qed.

Lemma get_price_from_llm_returns crop w :
  session_llm w <> None -> exists r, (get_price_from_llm crop w).1 = Ok r.
Proof.
  destruct w as [[[handle|]|] ld tr]; run; intros Hkey; try done.
  - destruct (complete handle _ _) as [text|msg]; cbn [fst snd]; [|by eexists].
    destruct (search_price _) as [g|]; [destruct (py_float g)|];
      cbn [fst snd]; by eexists.
  - by eexists.
Qed.

(** X3. On the session [__init__] leaves, [get_yield_prediction]
    never reports an exception text: for a crop name that is not
    empty it returns a full prediction or one of its two own errors. *)
Theorem constructed_advisor_errors w crop acres :
  crop <> "" ->
  exists self w1 d,
    new_YieldAdvisorLLM w = (Ok self, w1)
    /\ (get_yield_prediction self crop acres w1).1 = Ok (Some d)
    /\ (complete_prediction d
        \/ d = error_dict (normalize crop) acres "Could not determine price"
        \/ d = error_dict (normalize crop) acres
                 "Could not determine yield or price").
Proof.
  intros Hne.
  assert (exists w1, new_YieldAdvisorLLM w = (Ok advisor, w1)
                     /\ session_llm w1 <> None) as (w1 & Hnew & Hkey).
  { unfold new_YieldAdvisorLLM, bind, ret.
    pose proof (initialize_llm_sets_key w) as (Hok & Hk).
    destruct (initialize_llm w) as [[[]|msg] w1]; cbn [fst snd] in *; [|done].
    by exists w1. }
  exists advisor, w1. rewrite Hnew.
  unfold get_yield_prediction. rewrite (is_empty_false _ Hne).
  unfold try_except, bind, ret.
  destruct (static_yields advisor !! normalize crop) as [y|].
  - destruct (get_price_from_llm_returns (normalize crop) w1 Hkey) as [r Hr].
    destruct (get_price_from_llm (normalize crop) w1) as [[[p|]|msg] w2];
      cbn [fst snd] in *; try done; eexists; (split; [reflexivity|]);
      (split; [reflexivity|]).
    + left. apply prediction_dict_complete.
    + right. by left.
  - destruct (get_recommendations_value (normalize crop) w1)
      as [(yp & Hyp & _)|[Hs _]]; [|done].
    destruct (get_recommendations (normalize crop) w1) as [[[[y|] [p|]]|msg] w2];
      cbn [fst snd] in *; try done; eexists; (split; [reflexivity|]);
      (split; [reflexivity|]).
    + left. apply prediction_dict_complete.
    + right. by right.
    + right. by right.
    + right. by right.
Qed.

(** X4. Case and surrounding white space of the crop name do not
    matter as long as something is left of it: the call on the name and
    the call on its normal form return the same and leave the same
    world. *)
Theorem normalized_name_same_run self crop acres w :
  normalize crop <> "" ->
  get_yield_prediction self crop acres w
  = get_yield_prediction self (normalize crop) acres w.
Proof.
  intros Hne. unfold get_yield_prediction. rewrite normalize_idem.
  rewrite (is_empty_false _ Hne).
  assert (crop <> "") as Hc by (by intros ->).
  by rewrite (is_empty_false _ Hc).
Qed.

(** X21. A model that raises does not stop a prediction: the
    exception is caught on the path that asked, one warning with its
    text is put on the page, and the prediction is the error of its
    branch. One prompt was sent, and the session is as before. *)
Theorem model_failure_degrades self crop acres w handle msg :
  crop <> "" ->
  session_llm w = Some (Some handle) ->
  (forall prompt params, complete handle prompt params = Err msg) ->
  let c := normalize crop in
  let after events :=
    {| session_llm := session_llm w; loader := loader w;
       trace := trace w ++ events |} in
  get_yield_prediction self crop acres w
  = match static_yields self !! c with
    | Some _ =>
        (Ok (Some (error_dict c acres "Could not determine price")),
         after [ Enter_get_price_from_llm c;
                 Model_call (price_prompt c) price_sampling;
                 St_warning ("Error getting price: " ++ msg)%string ])
    | None =>
        (Ok (Some (error_dict c acres "Could not determine yield or price")),
         after [ Enter_get_recommendations c;
                 Sleep 0.1;
                 Model_call (combined_prompt c) combined_sampling;
                 St_warning ("Error getting recommendations: " ++ msg)%string ])
    end.
Proof.
  intros Hne Hs Hfail. cbn zeta. destruct w as [v ld tr].
  cbn [session_llm] in Hs. subst v.
  unfold get_yield_prediction. rewrite (is_empty_false _ Hne).
  destruct (static_yields self !! normalize crop); run; rewrite Hfail;
    cbn [session_llm loader trace fst snd]; rewrite <- ?app_assoc; reflexivity.
Qed.

(** X22. A crop of the table with a price from the model: when the
    model's text has a price the pattern finds and [float] reads, the
    prediction is the full one, with the yield of the table, that
    price, and as income the acres times the yield times the price.
    The model saw the price prompt once. *)
Theorem known_crop_prediction self crop acres w handle text group1 price y :
  crop <> "" ->
  static_yields self !! normalize crop = Some y ->
  session_llm w = Some (Some handle) ->
  complete handle (price_prompt (normalize crop)) price_sampling = Ok text ->
  search_price (Py.strip text) = Some group1 ->
  py_float group1 = Ok price ->
  get_yield_prediction self crop acres w
  = (Ok (Some (prediction_dict (normalize crop) acres y price)),
     {| session_llm := session_llm w; loader := loader w;
        trace := trace w
                 ++ [ Enter_get_price_from_llm (normalize crop);
                      Model_call (price_prompt (normalize crop)) price_sampling ] |})
  /\ dict_get "total_income" (prediction_dict (normalize crop) acres y price)
     = Some (VFloat (acres * y * price)%float).
Proof.
  intros Hne Hy Hs Htext Hgroup Hprice. split; [|reflexivity].
  destruct w as [v ld tr]. cbn [session_llm] in Hs. subst v.
  unfold get_yield_prediction. rewrite (is_empty_false _ Hne), Hy. run.
  rewrite Htext. cbn [session_llm loader trace fst snd]. rewrite Hgroup.
  cbn [fst snd]. rewrite Hprice. cbn [session_llm loader trace fst snd].
  by rewrite <- ?app_assoc.
Qed.

(** X23. A crop that is not in the table with both values from the
    model: when [parse_response] reads a yield and a price from the
    model's text, the prediction is the full one with these two, and as
    income the acres times the yield times the price. The model saw the
    combined prompt once, after the pause. *)
Theorem unknown_crop_prediction self crop acres w handle text y price :
  crop <> "" ->
  static_yields self !! normalize crop = None ->
  session_llm w = Some (Some handle) ->
  complete handle (combined_prompt (normalize crop)) combined_sampling = Ok text ->
  (parse_response text w).1 = Ok (Some y, Some price) ->
  get_yield_prediction self crop acres w
  = (Ok (Some (prediction_dict (normalize crop) acres y price)),
     {| session_llm := session_llm w; loader := loader w;
        trace := trace w
                 ++ [ Enter_get_recommendations (normalize crop);
                      Sleep 0.1;
                      Model_call (combined_prompt (normalize crop))
                        combined_sampling ] |})
  /\ dict_get "total_income" (prediction_dict (normalize crop) acres y price)
     = Some (VFloat (acres * y * price)%float).
Proof.
  intros Hne Hy Hs Htext Hparse. split; [|reflexivity].
  destruct w as [v ld tr]. cbn [session_llm] in Hs. subst v.
  revert Hparse. unfold get_yield_prediction.
  rewrite (is_empty_false _ Hne), Hy. run.
  rewrite Htext. cbn [session_llm loader trace fst snd]. rewrite strip_idem.
  destruct (parse_lines _ None None) as [[y' p']|msg];
    cbn [session_llm loader trace fst snd]; [|done].
  intros [= -> ->]. by rewrite <- ?app_assoc.
Qed.

End ModelHandle.

(** ** Reading the model's answer *)

Section ReadingAnswers.

Context `{Yield.Runtime}.
Import Yield Reading.





(** X6. Lines that start with neither label are ignored: the lines of
    a response give what its labelled lines alone give. *)
Theorem unlabelled_lines_ignored lines y p :
  parse_lines lines y p = parse_lines (List.filter labelled lines) y p.
Proof.
  revert y p. induction lines as [|line rest IH]; intros y p; [done|].
  cbn [parse_lines List.filter]. unfold labelled at 1.
  destruct (Py.startswith "Yield:" line) eqn:Ey; cbn [orb parse_lines].
  - rewrite Ey. destruct (py_float _); cbn [result_bind]; [apply IH|done].
  - destruct (Py.startswith "Price:" line) eqn:Ep; cbn [parse_lines].
    + rewrite Ey, Ep. destruct (py_float _); cbn [result_bind]; [apply IH|done].
    + apply IH.
Qed.

Lemma parse_lines_unreadable lines y p :
  Exists unreadable lines -> exists msg, parse_lines lines y p = Err msg.
Proof.
  intros Hex. revert y p.
  induction Hex as [line rest [Hlab [msg Hmsg]]|line rest _ IH]; intros y p;
    cbn [parse_lines]; unfold payload, labelled in *.
  - destruct (Py.startswith "Yield:" line).
    + rewrite Hmsg. by eexists.
    + cbn [orb] in Hlab. rewrite Hlab, Hmsg. by eexists.
  - destruct (Py.startswith "Yield:" line).
    + destruct (py_float _); cbn [result_bind]; [apply IH|by eexists].
    + destruct (Py.startswith "Price:" line); [|apply IH].
      destruct (py_float _); cbn [result_bind]; [apply IH|by eexists].
Qed.

Lemma parse_lines_raises lines y p msg :
  parse_lines lines y p = Err msg -> Exists unreadable lines.
Proof.
  revert y p. induction lines as [|line rest IH]; intros y p; [done|].
  cbn [parse_lines].
  destruct (Py.startswith "Yield:" line) eqn:Ey.
  - destruct (py_float _) as [v|msg'] eqn:Ef; cbn [result_bind].
    + intros Hrest. apply Exists_cons_tl. by eapply IH.
    + intros _. apply Exists_cons_hd. unfold unreadable, labelled, payload.
      rewrite Ey. split; [done|]. by eexists.
  - destruct (Py.startswith "Price:" line) eqn:Ep.
    + destruct (py_float _) as [v|msg'] eqn:Ef; cbn [result_bind].
      * intros Hrest. apply Exists_cons_tl. by eapply IH.
      * intros _. apply Exists_cons_hd. unfold unreadable, labelled, payload.
        rewrite Ey, Ep. split; [done|]. by eexists.
    + intros Hrest. apply Exists_cons_tl. by eapply IH.
Qed.

(** X7. [parse_response] never raises. One labelled line whose number
    [float] rejects voids the whole answer: both values are [None],
    also the one read from a good line, and one warning is put on the
    page. With no such line nothing is put on the page. *)
Theorem unreadable_line_voids_both response w :
  let lines := Py.split Py.newline (Py.strip response) in
  (Exists unreadable lines ->
   exists msg,
     parse_response response w
     = (Ok (None, None),
        {| session_llm := session_llm w; loader := loader w;
           trace := trace w
                    ++ [St_warning ("Error parsing response: " ++ msg)%string] |}))
  /\ (~ Exists unreadable lines ->
      exists y p, parse_response response w = (Ok (y, p), w)).
Proof.
  cbn zeta. unfold parse_response, try_except, lift, bind, emit, ret. split.
  - intros Hex.
    destruct (parse_lines_unreadable _ None None Hex) as [msg ->]. by exists msg.
  - intros Hnone.
    destruct (parse_lines _ None None) as [[y p]|msg] eqn:E; [by exists y, p|].
    destruct Hnone. by eapply parse_lines_raises.
Qed.

Lemma parse_lines_app l1 l2 y p :
  parse_lines (l1 ++ l2) y p
  = result_bind (parse_lines l1 y p) (fun yp => parse_lines l2 yp.1 yp.2).
Proof.
  revert y p. induction l1 as [|line rest IH]; intros y p; [done|].
  cbn [app parse_lines].
  destruct (Py.startswith "Yield:" line).
  - destruct (py_float _); cbn [result_bind]; [apply IH|done].
  - destruct (Py.startswith "Price:" line); [|apply IH].
    destruct (py_float _); cbn [result_bind]; [apply IH|done].
Qed.

(** X8. A label that is given more than once counts where it comes
    last: a further labelled line that reads as a number replaces the
    value of its label and leaves the other value. *)
Theorem last_labelled_line_wins lines line y p v :
  parse_lines lines None None = Ok (y, p) ->
  labelled line = true ->
  py_float (payload line) = Ok v ->
  parse_lines (lines ++ [line]) None None
  = Ok (if Py.startswith "Yield:" line then (Some v, p) else (y, Some v)).
Proof.
  intros Hlines Hlab Hv. rewrite parse_lines_app, Hlines.
  cbn [result_bind parse_lines fst snd]. unfold labelled, payload in *.
  destruct (Py.startswith "Yield:" line).
  - by rewrite Hv.
  - cbn [orb] in Hlab. by rewrite Hlab, Hv.
Qed.

End ReadingAnswers.

(** ** The expense form and the analytics *)

Section FormFacts.

Import Dashboard.
Local Open Scope float_scope.

Lemma omap_length_le {A B} (f : A -> option B) (l : list A) :
  length (omap f l) <= length l.
Proof.
  induction l as [|a l IH]; cbn [omap list_omap length]; [done|].
  destruct (f a); cbn [length]; lia.
Qed.

Lemma temp_expenses_at_most_five inputs clock :
  length (temp_expenses inputs clock) <= 5.
Proof. unfold temp_expenses. apply (omap_length_le _ (seq 0 5)). Qed.

(** X9. The form only appends. What the session list held stays, in
    place and unchanged, at the head of the list; at most five
    expenses are added behind it; without a submission, or with no
    row that counts, the list is as before and nothing is reported;
    a success message is there exactly when something was added. *)
Theorem expense_form_appends inputs clock submitted expenses :
  exists added,
    (expense_form inputs clock submitted expenses).1 = expenses ++ added
    /\ length added <= 5
    /\ (added = [] \/ added = temp_expenses inputs clock)
    /\ (submitted = false -> added = [])
    /\ (added = [] <-> (expense_form inputs clock submitted expenses).2 = []).
Proof.
  unfold expense_form.
  destruct (temp_expenses inputs clock) as [|e temp] eqn:Et.
  - rewrite andb_false_r. exists []. cbn [fst snd]. rewrite app_nil_r.
    repeat split; auto. cbn [length]. lia.
  - destruct submitted; cbn [andb negb length Nat.eqb fst snd].
    + exists (e :: temp). repeat split; auto; try done.
      rewrite <- Et. apply temp_expenses_at_most_five.
    + exists []. rewrite app_nil_r. repeat split; auto. cbn [length]. lia.
Qed.

(** X10. A row that counts is not lost: on a submission, a row with a
    category and an amount above zero is in the session list
    afterwards, with its description and the time it was read. *)
Theorem valid_row_is_stored inputs clock expenses i :
  i < 5 ->
  name (inputs i) <> "" ->
  (0 <? row_amount (inputs i)) = true ->
  {| category := name (inputs i);
     description := row_description (inputs i);
     amount := row_amount (inputs i);
     date := clock i |}
  ∈ (expense_form inputs clock true expenses).1.
Proof.
  intros Hi Hname Hamount.
  assert (row_expense (clock i) (inputs i)
          = Some {| category := name (inputs i);
                    description := row_description (inputs i);
                    amount := row_amount (inputs i);
                    date := clock i |}) as Hrow.
  { unfold row_expense. rewrite Hamount. by destruct (name (inputs i)). }
  assert ({| category := name (inputs i);
             description := row_description (inputs i);
             amount := row_amount (inputs i);
             date := clock i |} ∈ temp_expenses inputs clock) as Hin.
  { unfold temp_expenses. apply list_elem_of_omap. exists i. split; [|done].
    apply list_elem_of_In, in_seq. lia. }
  unfold expense_form.
  destruct (temp_expenses inputs clock) as [|e temp]; [by apply elem_of_nil in Hin|].
  cbn [andb negb length Nat.eqb fst]. apply elem_of_app. by right.
Qed.

End FormFacts.

(** ** The two lookups *)

Section LookupFacts.

Context `{Unicode.Database} `{Location.Runtime}.
Import Location LookupProps.

Ltac run :=
  unfold get_location_from_ip, geocode_location, requests_get, geocode, emit,
    try_except, bind, ret, lift, unresolved;
  cbn [http geocoder trace fst snd].

Lemma errors_since_after t e msgs :
  (forall msg, e <> St_error msg) ->
  Cached.errors_since (length t) (t ++ e :: (St_error <$> msgs)) = msgs.
Proof.
  intros He. unfold Cached.errors_since. rewrite drop_app_length.
  cbn [omap list_omap]. destruct e; try (by destruct (He msg)).
  all: induction msgs as [|msg msgs IH]; [done|]; cbn; by rewrite IH.
Qed.

Lemma requests_app t1 t2 : requests (t1 ++ t2) = requests t1 ++ requests t2.
Proof. unfold requests. apply omap_app. Qed.

Lemma requests_errors msgs : requests (St_error <$> msgs) = [].
Proof. induction msgs as [|msg msgs IH]; [done|exact IH]. Qed.

(** The function under the decorator: one query, all or nothing. *)
Lemma geocode_location_run location_input w :
  exists r msgs,
    geocode_location location_input w
    = (Ok r,
       {| http := http w; geocoder := geocoder w;
          trace := trace w ++ Geocode (query_for location_input) 5
                     :: (St_error <$> msgs) |})
    /\ match geocoder w (query_for location_input) with
       | Ok (Some l) =>
           r = (Some (latitude l), Some (longitude l), Some (address l))
           /\ msgs = []
       | Ok None => r = (None, None, None) /\ msgs = []
       | Err msg =>
           r = (None, None, None)
           /\ msgs = [("Error geocoding location: " ++ msg)%string]
       end.
Proof.
  unfold query_for. run. destruct (Unicode.isdigit location_input && _); run.
  all: destruct (geocoder w _) as [[l|]|msg]; cbn [trace fst snd];
    rewrite <- ?app_assoc.
  all: try (by eexists _, []).
  all: by eexists _, [_].
Qed.

(** X12. [geocode_location] never raises and resolves all or nothing.
    Without a cached entry for the input it sends one query and
    returns latitude, longitude and address of the place found, or
    three times [None]; an error is put on the page exactly when the
    geocoder raised, a place that is not found is passed on silently;
    and what it returned, also a failure, is stored for 3600 seconds.
    With an entry it sends nothing and returns the stored value. A call
    repeated while the entry is held returns the same and sends no
    query. *)
Theorem geocode_all_or_nothing location_input a :
  let q := query_for location_input in
  let first := Cached.geocode_location location_input a in
  let again := Cached.geocode_location location_input first.2 in
  match Cached.geocode_cache a !! location_input with
  | Some e =>
      first = (Ok (Cached.cached_value e),
               Cached.with_world
                 (Cached.replay (Cached.replayed e) (Cached.world a)) a)
  | None =>
      exists r msgs,
        first.1 = Ok r
        /\ trace (Cached.world first.2)
           = trace (Cached.world a) ++ Geocode q 5 :: (St_error <$> msgs)
        /\ (r = (None, None, None)
            \/ exists l,
                 geocoder (Cached.world a) q = Ok (Some l)
                 /\ r = (Some (latitude l), Some (longitude l),
                         Some (address l)))
        /\ (forall l,
              geocoder (Cached.world a) q = Ok (Some l) -> r <> (None, None, None))
        /\ (msgs = [] <-> exists found, geocoder (Cached.world a) q = Ok found)
        /\ (forall msg,
              geocoder (Cached.world a) q = Err msg ->
              msgs = [("Error geocoding location: " ++ msg)%string])
        /\ Cached.geocode_cache first.2
           = <[location_input := {| Cached.cached_value := r;
                                    Cached.replayed := msgs;
                                    Cached.time_to_live := 3600 |}]>
               (Cached.geocode_cache a)
  end
  /\ again.1 = first.1
  /\ geocode_queries (trace (Cached.world again.2))
     = geocode_queries (trace (Cached.world first.2)).
Proof.
  cbn zeta. unfold Cached.geocode_location, Cached.cache_data.
  destruct (Cached.geocode_cache a !! location_input) as [e|] eqn:Hcache.
  - cbn [fst snd Cached.with_world Cached.geocode_cache]. rewrite Hcache.
    split; [reflexivity|]. split; [reflexivity|].
    cbn [snd Cached.with_world Cached.world Cached.replay trace].
    by rewrite !geocode_queries_app, !geocode_queries_errors, !app_nil_r.
  - destruct (geocode_location_run location_input (Cached.world a))
      as (r & msgs & -> & Hcases).
    cbn [fst snd Cached.with_world Cached.world Cached.geocode_cache trace].
    rewrite lookup_insert_eq.
    rewrite (errors_since_after _ _ msgs) by done.
    split; [|split].
    + exists r, msgs. split; [reflexivity|]. split; [reflexivity|].
      destruct (geocoder (Cached.world a) (query_for location_input))
        as [[l|]|msg]; destruct Hcases as [-> ->];
        repeat split; try done; eauto.
      all: try (by intros [found Hf]).
      all: try (by intros l' [=]).
      all: by intros msg' [= <-].
    + reflexivity.
    + cbn [snd Cached.with_world Cached.world Cached.replay trace
           Cached.replayed].
      by rewrite geocode_queries_app, geocode_queries_errors, app_nil_r.
Qed.

(** The function under the decorator: one request. *)
Lemma get_location_from_ip_run w :
  exists v msgs,
    get_location_from_ip w
    = (Ok v,
       {| http := http w; geocoder := geocoder w;
          trace := trace w ++ Http_get ip_url 5 :: (St_error <$> msgs) |})
    /\ (msgs = [] \/ exists msg, msgs = [("Error getting location: " ++ msg)%string])
    /\ (msgs = [] <->
        exists resp,
          http w ip_url = Ok resp
          /\ (status_code resp <> 200%Z
              \/ exists members, json_body resp = Ok (JObj members))).
Proof.
  run. destruct (http w ip_url) as [resp|msg]; cbn [trace fst snd];
    rewrite <- ?app_assoc.
  2:{ eexists _, [_]. split; [reflexivity|]. split; [right; by eexists|].
      split; [done|]. by intros (resp & [=] & _). }
  destruct (status_code resp =? 200)%Z eqn:Hstatus; cbn [trace fst snd].
  2:{ apply Z.eqb_neq in Hstatus. eexists _, []. split; [reflexivity|].
      split; [by left|]. split; [|done]. intros _. exists resp. auto. }
  apply Z.eqb_eq in Hstatus.
  destruct (json_body resp) as [[| | | | |members]|msg] eqn:Hbody;
    cbn [get trace fst snd]; rewrite <- ?app_assoc.
  6:{ eexists _, []. split; [reflexivity|]. split; [by left|]. split; [|done].
      intros _. exists resp. split; [done|]. right. by exists members. }
  all: eexists _, [_]; (split; [reflexivity|]).
  all: split; [right; by eexists|]; split; [done|].
  all: intros (resp' & [= <-] & [Hs|(members & Hm)]); [done|].
  all: rewrite Hbody in Hm; discriminate.
Qed.

(** X13. Without a cached entry the IP lookup makes one request, to
    the provider's address with a timeout of five seconds, and none to
    the geocoder. It puts an error on the page exactly when something
    raised: the request, the decoding of the body, or the reading of a
    body that is no dictionary; a status other than 200 is passed over
    in silence. What it returned is stored for 300 seconds. With an
    entry it makes no request and returns the stored value, and a call
    repeated while the entry is held returns the same and makes no
    request. *)
Theorem ip_lookup_one_request a :
  let first := Cached.get_location_from_ip a in
  let again := Cached.get_location_from_ip first.2 in
  match Cached.ip_cache a with
  | Some e =>
      first = (Ok (Cached.cached_value e),
               Cached.with_world
                 (Cached.replay (Cached.replayed e) (Cached.world a)) a)
  | None =>
      exists v msgs,
        first.1 = Ok v
        /\ trace (Cached.world first.2)
           = trace (Cached.world a) ++ Http_get ip_url 5 :: (St_error <$> msgs)
        /\ (msgs = []
            \/ exists msg, msgs = [("Error getting location: " ++ msg)%string])
        /\ (msgs = [] <->
            exists resp,
              http (Cached.world a) ip_url = Ok resp
              /\ (status_code resp <> 200%Z
                  \/ exists members, json_body resp = Ok (JObj members)))
        /\ Cached.ip_cache first.2
           = Some {| Cached.cached_value := v;
                     Cached.replayed := msgs;
                     Cached.time_to_live := 300 |}
  end
  /\ again.1 = first.1
  /\ requests (trace (Cached.world again.2))
     = requests (trace (Cached.world first.2)).
Proof.
  cbn zeta. unfold Cached.get_location_from_ip, Cached.cache_data.
  destruct (Cached.ip_cache a) as [e|] eqn:Hcache.
  - cbn [fst snd Cached.with_world Cached.ip_cache]. rewrite Hcache.
    split; [reflexivity|]. split; [reflexivity|].
    cbn [snd Cached.with_world Cached.world Cached.replay trace].
    by rewrite !requests_app, !requests_errors, !app_nil_r.
  - destruct (get_location_from_ip_run (Cached.world a))
      as (v & msgs & -> & Hmsgs & Hsilent).
    cbn [fst snd Cached.with_world Cached.world Cached.ip_cache trace].
    rewrite (errors_since_after _ _ msgs) by done.
    split; [|split].
    + by exists v, msgs.
    + reflexivity.
    + cbn [snd Cached.with_world Cached.world Cached.replay trace
           Cached.replayed].
      by rewrite requests_app, requests_errors, app_nil_r.
Qed.

End LookupFacts.

(** ** The expense categories *)

Section CategoryFacts.

Import Categories.

Lemma known_elem_of new_category categories :
  known new_category categories = true <-> new_category ∈ categories.
Proof.
  unfold known. rewrite existsb_exists. split.
  - intros (c & Hin & Heq). apply String.eqb_eq in Heq. subst c.
    by apply list_elem_of_In.
  - intros Hin. exists new_category. split; [by apply list_elem_of_In|].
    apply String.eqb_refl.
Qed.

Lemma add_category_keeps new_category categories :
  NoDup categories /\ ("" ∉ categories) ->
  NoDup (add_category new_category categories).1
  /\ ("" ∉ (add_category new_category categories).1).
Proof.
  intros [Hnd Hblank]. unfold add_category.
  destruct (Py.is_empty new_category) eqn:Ee; cbn [negb andb fst]; [done|].
  destruct (known new_category categories) eqn:Ek; cbn [negb fst]; [done|].
  assert (new_category ∉ categories) as Hnew.
  { intros Hin. apply known_elem_of in Hin. congruence. }
  split.
  - apply NoDup_app. split; [done|]. split; [|apply NoDup_singleton].
    intros c Hc Hc'. apply list_elem_of_singleton in Hc'. by subst c.
  - intros Hin. apply elem_of_app in Hin as [Hin|Hin]; [done|].
    apply list_elem_of_singleton in Hin. subst new_category. done.
Qed.

(** X14. Whatever is typed into the input for new categories, the
    category list of a session has no entry twice and no empty entry,
    so the options of the select boxes, the empty choice and the
    categories, are all different; and it starts with the nine
    categories of the first initialisation, which are never removed:
    the second initialisation, without [Cleaning], never takes
    effect. *)
Theorem category_list_invariant categories :
  reachable categories ->
  NoDup (options categories)
  /\ (exists added, categories = default_categories ++ added)
  /\ categories <> second_default_categories.
Proof.
  intros Hreach.
  assert (NoDup categories /\ ("" ∉ categories)
          /\ exists added, categories = default_categories ++ added)
    as (Hnd & Hblank & added & Hpre).
  { induction Hreach as [categories Hinit|new_category categories _ IH].
    - injection Hinit as <-. split; [|split].
      + apply (bool_decide_unpack _). vm_compute. exact I.
      + apply (bool_decide_unpack _). vm_compute. exact I.
      + exists []. reflexivity.
    - destruct IH as (Hnd & Hblank & added & Hpre).
      destruct (add_category_keeps new_category categories (conj Hnd Hblank))
        as [Hnd' Hblank'].
      split; [done|]. split; [done|].
      unfold add_category.
      destruct (negb (Py.is_empty new_category) && _); cbn [fst].
      + exists (added ++ [new_category]). rewrite Hpre. by rewrite app_assoc.
      + by exists added. }
  split; [|split].
  - unfold options. apply NoDup_cons. by split.
  - by exists added.
  - rewrite Hpre. intros Heq. apply (f_equal length) in Heq.
    rewrite length_app in Heq. cbn in Heq. lia.
Qed.

(** X15. A category is added once: typing a name that is in the list,
    also one that was added a moment ago, or typing nothing, leaves
    the list as it is and reports nothing. *)
Theorem add_category_once new_category categories :
  add_category new_category (add_category new_category categories).1
  = ((add_category new_category categories).1, [])
  /\ add_category "" categories = (categories, [])
  /\ (new_category ∈ categories ->
      add_category new_category categories = (categories, [])).
Proof.
  split; [|split].
  - unfold add_category.
    destruct (Py.is_empty new_category) eqn:Ee; cbn [negb andb fst]; [done|].
    destruct (known new_category categories) eqn:Ek; cbn [negb fst].
    + by rewrite Ek.
    + assert (known new_category (categories ++ [new_category]) = true) as ->.
      { apply known_elem_of, elem_of_app. right.
        by apply list_elem_of_singleton. }
      reflexivity.
  - reflexivity.
  - intros Hin. apply known_elem_of in Hin. unfold add_category.
    by rewrite Hin, andb_false_r.
Qed.

End CategoryFacts.

(** ** The yield advisor tab *)

Section TabFacts.

Context `{Yield.Runtime} `{YieldTab.Rendering}.
Import Yield YieldTab TabProps.

#[local] Arguments String.append : simpl never.

Lemma page_only_ret {A} (a : A) : page_only (ret a).
Proof. intros p. cbn. repeat split; try done. exists []. by rewrite app_nil_r. Qed.

Lemma page_only_lift {A} (r : result A) : page_only (lift r).
Proof. intros p. cbn. repeat split; try done. exists []. by rewrite app_nil_r. Qed.

Lemma page_only_show e : page_only (show e).
Proof. intros p. cbn. repeat split; try done. by exists [e]. Qed.

Lemma page_only_bind {A B} (m : M page A) (k : A -> M page B) :
  page_only m -> (forall a, page_only (k a)) -> page_only (bind m k).
Proof.
  intros Hm Hk p. unfold bind. destruct (Hm p) as (Hs & Ha & Hn & Ht & added & Hsc).
  destruct (m p) as [[a|msg] p1]; cbn [fst snd] in *.
  - destruct (Hk a p1) as (Hs' & Ha' & Hn' & Ht' & added' & Hsc').
    repeat split; try congruence.
    exists (added ++ added'). rewrite Hsc', Hsc. by rewrite app_assoc.
  - repeat split; try done. by exists added.
Qed.

Lemma page_only_try {A} (m : M page A) (h : string -> M page A) :
  page_only m -> (forall msg, page_only (h msg)) -> page_only (try_except m h).
Proof.
  intros Hm Hh p. unfold try_except.
  destruct (Hm p) as (Hs & Ha & Hn & Ht & added & Hsc).
  destruct (m p) as [[a|msg] p1]; cbn [fst snd] in *.
  - repeat split; try done. by exists added.
  - destruct (Hh msg p1) as (Hs' & Ha' & Hn' & Ht' & added' & Hsc').
    repeat split; try congruence.
    exists (added ++ added'). rewrite Hsc', Hsc. by rewrite app_assoc.
Qed.

Lemma page_only_if {A} (b : bool) (m1 m2 : M page A) :
  page_only m1 -> page_only m2 -> page_only (if b then m1 else m2).
Proof. by destruct b. Qed.

Ltac page_only :=
  repeat (cbn zeta;
          lazymatch goal with
          | |- page_only (ret _) => apply page_only_ret
          | |- page_only (lift _) => apply page_only_lift
          | |- page_only (show _) => apply page_only_show
          | |- page_only (bind _ _) => apply page_only_bind; [|intros ?]
          | |- page_only (try_except _ _) => apply page_only_try; [|intros ?]
          | |- page_only (if _ then _ else _) => apply page_only_if
          end).

Lemma display_predictions_page_only predictions :
  page_only (display_predictions predictions).
Proof. unfold display_predictions. page_only. Qed.

Lemma display_predictions_returns predictions p :
  (display_predictions predictions p).1 = Ok tt.
Proof.
  unfold display_predictions, bind, show, try_except. cbn [fst snd].
  match goal with |- (match ?m ?q with _ => _ end).1 = _ =>
    destruct (m q) as [[[]|msg] p1] end; reflexivity.
Qed.

Lemma has_key_elem k keys : has_key k keys = true <-> k ∈ keys.
Proof.
  unfold has_key. rewrite existsb_exists. split.
  - intros (c & Hin & Heq). apply String.eqb_eq in Heq. subst c.
    by apply list_elem_of_In.
  - intros Hin. exists k. split; [by apply list_elem_of_In|].
    apply String.eqb_refl.
Qed.

Lemma add_key_elem k seen k' : k ∈ add_key seen k' <-> k ∈ seen \/ k = k'.
Proof.
  unfold add_key. destruct (has_key k' seen) eqn:E.
  - apply has_key_elem in E. split; [by left|]. intros [Hin| ->]; done.
  - rewrite elem_of_app, list_elem_of_singleton. done.
Qed.

Lemma fold_add_key_elem k ks : forall seen,
  k ∈ fold_left add_key ks seen <-> k ∈ seen \/ k ∈ ks.
Proof.
  induction ks as [|k' ks IH]; intros seen; cbn [fold_left].
  - rewrite elem_of_nil. tauto.
  - rewrite IH, add_key_elem, elem_of_cons. tauto.
Qed.

Lemma dict_has_elem k d : dict_has k d = true <-> k ∈ map fst d.
Proof.
  unfold dict_has. induction d as [|[k' v] d IH]; cbn [dict_get map fst].
  - rewrite elem_of_nil. split; [done|tauto].
  - rewrite elem_of_cons. destruct (String.eqb k k') eqn:E.
    + apply String.eqb_eq in E. split; [by left|done].
    + apply String.eqb_neq in E. rewrite IH. split; [by right|].
      by intros [?|?].
Qed.

Lemma column_names_from k records : forall seen,
  k ∈ fold_left (fun seen d => fold_left add_key (map fst d) seen) records seen
  <-> k ∈ seen \/ exists d, d ∈ records /\ dict_has k d = true.
Proof.
  induction records as [|d records IH]; intros seen; cbn [fold_left].
  - split; [by left|]. intros [?|(d & Hd & _)]; [done|].
    by apply elem_of_nil in Hd.
  - rewrite IH, fold_add_key_elem, <- dict_has_elem. split.
    + intros [[?|Hd]|(d' & Hd' & Hk)]; [by left| |].
      * right. exists d. split; [apply elem_of_cons; by left|done].
      * right. exists d'. split; [apply elem_of_cons; by right|done].
    + intros [?|(d' & Hd' & Hk)]; [by left; left|].
      apply elem_of_cons in Hd' as [->|Hd']; [by left; right|].
      right. by exists d'.
Qed.

(** A name is a column exactly when some record has it as a key. *)
Lemma column_names_elem k records :
  has_key k (column_names records) = true
  <-> exists d, d ∈ records /\ dict_has k d = true.
Proof.
  rewrite has_key_elem. unfold column_names. rewrite column_names_from.
  rewrite elem_of_nil. tauto.
Qed.

Ltac run_page :=
  unfold on_submit, display_predictions, show, set_total_income_value,
    try_except, bind, ret, lift, DataFrame;
  cbn [session yield_advisor num_crops total_income_value screen fst snd
       columns rows].

(** X16. One failed prediction hides the results of all: when the
    predictions that are submitted have an error among them, the page
    gets the heading and one warning, no table, no totals and no
    download, and the income kept for the profit dashboard stays as it
    was. *)
Theorem failed_prediction_hides_results predictions p :
  some_error predictions ->
  on_submit true predictions p
  = (Ok tt,
     {| session := session p;
        yield_advisor := yield_advisor p;
        num_crops := num_crops p;
        total_income_value := total_income_value p;
        screen := screen p
                  ++ [ Show_subheader "Yield Predictions";
                       Show_warning "Some predictions could not be calculated" ] |}).
Proof.
  intros (crop & acres & msg & Hin).
  assert (forall k, dict_has k (error_dict crop acres msg) = true ->
                    has_key k (column_names predictions) = true) as Hcol.
  { intros k Hk. apply column_names_elem. by eexists. }
  assert (forallb (dict_has "total_income") predictions = false) as Hincome.
  { apply not_true_is_false. intros Hall. rewrite forallb_forall in Hall.
    apply list_elem_of_In in Hin. specialize (Hall _ Hin). discriminate. }
  destruct predictions as [|d rest]; [by apply elem_of_nil in Hin|].
  run_page. rewrite (Hcol "error" eq_refl). run_page. unfold select.
  unfold DataFrame. cbn [columns rows List.filter].
  rewrite (Hcol "crop" eq_refl), (Hcol "acres" eq_refl), (Hcol "error" eq_refl).
  cbn [negb]. rewrite Hincome. cbn [fst snd]. by rewrite <- app_assoc.
Qed.

Lemma column_names_full hs :
  hs <> [] -> column_names (prediction_of <$> hs) = prediction_keys.
Proof.
  destruct hs as [|h hs]; [done|]. intros _.
  unfold column_names. cbn [fmap list_fmap fold_left].
  change (fold_left add_key (map fst (prediction_of h)) []) with prediction_keys.
  induction hs as [|h' hs IH]; [done|]. cbn [list_fmap fold_left].
  change (fold_left add_key (map fst (prediction_of h')) prediction_keys)
    with prediction_keys.
  exact IH.
Qed.

Lemma format_rows_map {X} col f (g : X -> dict) (v : X -> float) xs :
  (forall x, dict_get col (g x) = Some (VFloat (v x))) ->
  format_rows col f (g <$> xs)
  = Ok ((fun x => dict_set col (VStr (f (v x))) (g x)) <$> xs).
Proof.
  intros Hcell. induction xs as [|x xs IH]; [done|].
  cbn [fmap list_fmap format_rows] in *. rewrite Hcell. cbn [format_cell result_bind].
  by rewrite IH.
Qed.

Lemma drawn_map {X} col (g : X -> dict) (v : X -> float) xs started :
  (forall x, dict_get col (g x) = Some (VFloat (v x))) ->
  drawn col (g <$> xs) started = Ok (v <$> xs).
Proof.
  intros Hcell. revert started. induction xs as [|x xs IH]; intros started; [done|].
  cbn [fmap list_fmap drawn] in *. rewrite Hcell. by rewrite IH.
Qed.

(** X17. Full predictions are shown whole: when every prediction that
    is submitted is a full one, the page gets the heading, the table
    with one row per prediction in their order, the three totals, each
    the sum of its column, and the download of that table; nothing
    raises, and the income kept for the profit dashboard becomes the
    sum of the incomes. *)
Theorem full_predictions_shown hs p :
  hs <> [] ->
  on_submit true (prediction_of <$> hs) p
  = (Ok tt,
     {| session := session p;
        yield_advisor := yield_advisor p;
        num_crops := num_crops p;
        total_income_value := Some (py_sum (h_income <$> hs));
        screen :=
          screen p
          ++ [ Show_subheader "Yield Predictions";
               Show_dataframe (display_frame hs);
               Show_metric "Total Area"
                 (format_2f (py_sum (h_acres <$> hs)) ++ " acres")%string;
               Show_metric "Total Expected Yield"
                 (format_2f (py_sum (h_expected <$> hs)) ++ " kg")%string;
               Show_metric "Total Income"
                 (rupee ++ format_2f (py_sum (h_income <$> hs)))%string;
               Show_download "Download Predictions"
                 (to_csv (display_frame hs)) "yield_predictions.csv"
                 "text/csv" ] |}).
Proof.
  intros Hne.
  assert (forallb (dict_has "total_income") (prediction_of <$> hs) = true) as Hall.
  { apply forallb_forall. intros d Hd. apply list_elem_of_In in Hd.
    apply list_elem_of_fmap in Hd as (h & -> & _). reflexivity. }
  assert (sum_of "acres" (prediction_of <$> hs) = Ok (py_sum (h_acres <$> hs)))
    as Harea.
  { unfold sum_of. by rewrite (drawn_map _ _ h_acres). }
  assert (sum_of "expected_yield" (prediction_of <$> hs)
          = Ok (py_sum (h_expected <$> hs))) as Hyield.
  { unfold sum_of. by rewrite (drawn_map _ _ h_expected). }
  assert (sum_of "total_income" (prediction_of <$> hs)
          = Ok (py_sum (h_income <$> hs))) as Hincome.
  { unfold sum_of. by rewrite (drawn_map _ _ h_income). }
  unfold on_submit.
  destruct (prediction_of <$> hs) as [|d rest] eqn:Hds.
  { destruct hs; [done|discriminate]. }
  lazy iota beta. rewrite <- Hds in *. clear d rest Hds.
  run_page. rewrite (column_names_full hs Hne).
  change (has_key "error" prediction_keys) with false. cbn iota.
  unfold apply_format. cbn [columns rows].
  change (has_key "yield_per_acre" prediction_keys) with true. cbn iota.
  rewrite (format_rows_map _ _ _ h_yield) by done. cbn [result_bind columns rows].
  change (has_key "expected_yield" prediction_keys) with true. cbn iota.
  rewrite (format_rows_map _ _ _ h_expected) by done. cbn [result_bind columns rows].
  change (has_key "price_per_kg" prediction_keys) with true. cbn iota.
  rewrite (format_rows_map _ _ _ h_price) by done. cbn [result_bind columns rows].
  change (has_key "total_income" prediction_keys) with true. cbn iota.
  rewrite (format_rows_map _ _ _ h_income) by done. cbn [result_bind columns rows].
  rewrite Harea, Hyield, Hincome. cbn [fst snd].
  unfold set_columns, drop. cbn [columns rows].
  change (Nat.eqb (length display_names) (length prediction_keys)) with true.
  cbn iota. cbn [columns rows].
  change (has_key "Unit" display_names) with true. cbn iota.
  rewrite Hall. cbn [fst snd screen].
  assert ({| columns := List.filter (fun c => negb (String.eqb "Unit" c)) display_names;
             rows := map (List.filter (fun kv => negb (String.eqb "Unit" kv.1)))
                       (map (map (fun kv => (renamed prediction_keys display_names kv.1, kv.2)))
                          ((fun x => dict_set "total_income"
                                       (VStr (rupee ++ format_2f (h_income x))%string)
                              (dict_set "price_per_kg"
                                 (VStr (rupee ++ format_2f (h_price x))%string)
                                 (dict_set "expected_yield"
                                    (VStr (format_2f (h_expected x) ++ " kg")%string)
                                    (dict_set "yield_per_acre"
                                       (VStr (format_2f (h_yield x) ++ " kg/acre")%string)
                                       (prediction_of x))))) <$> hs)) |}
          = display_frame hs) as ->.
  { unfold display_frame. f_equal. rewrite !map_map.
    apply map_ext. intros h. reflexivity. }
  rewrite <- ?app_assoc. reflexivity.
Qed.

End TabFacts.

Section TabRuns.

Context `{Yield.Runtime} `{YieldTab.Rendering}.
Import Yield YieldTab TabProps.

#[local] Arguments String.append : simpl never.
#[local] Arguments get_yield_prediction : simpl never.

Lemma row_name_normal inp i : normalize (row_name inp i) = row_name inp i.
Proof.
  unfold normalize, row_name.
  by rewrite lower_idem, lower_strip, strip_idem.
Qed.

Lemma model_calls_app t1 t2 :
  model_calls (t1 ++ t2) = model_calls t1 ++ model_calls t2.
Proof. unfold model_calls. apply omap_app. Qed.

(** One call of the advisor for a name that is not empty. *)
Lemma get_yield_prediction_call self crop acres w :
  crop <> "" ->
  exists d w' evs,
    get_yield_prediction self crop acres w = (Ok (Some d), w')
    /\ dict_get "crop" d = Some (VStr (normalize crop))
    /\ dict_get "acres" d = Some (VFloat acres)
    /\ produced d
    /\ trace w' = trace w ++ evs
    /\ length (model_calls evs) <= 1.
Proof.
  intros Hne. destruct (static_yields self !! normalize crop) as [y|] eqn:Hy.
  - destruct (known_crop_run self crop acres w y Hne Hy)
      as (d & evs & Hd & Ht & _ & Hcalls & Hshape).
    destruct (get_yield_prediction self crop acres w) as [r w'].
    cbn [fst snd] in *. subst r. exists d, w', (Enter_get_price_from_llm (normalize crop) :: evs).
    split; [done|].
    assert (length (model_calls (Enter_get_price_from_llm (normalize crop) :: evs)) <= 1).
    { change (length (model_calls evs) <= 1). destruct Hcalls as [->| ->]; cbn; lia. }
    destruct Hshape as [(price & ->)|(msg & ->)]; repeat split; try done;
      unfold produced; eauto 10.
  - destruct (unknown_crop_run self crop acres w Hne Hy)
      as (d & evs & Hd & Ht & _ & Hcalls & Hshape & _).
    destruct (get_yield_prediction self crop acres w) as [r w'].
    cbn [fst snd] in *. subst r. exists d, w', (Enter_get_recommendations (normalize crop) :: evs).
    split; [done|].
    assert (length (model_calls (Enter_get_recommendations (normalize crop) :: evs)) <= 1).
    { change (length (model_calls evs) <= 1). destruct Hcalls as [->| ->]; cbn; lia. }
    destruct Hshape as [(y & price & -> & _)|(msg & ->)]; repeat split; try done;
      unfold produced; eauto 10.
Qed.

Lemma filter_at_most {A} (f : A -> bool) (l : list A) :
  length (List.filter f l) <= length l.
Proof.
  induction l as [|a l IH]; cbn [List.filter length]; [done|].
  destruct (f a); cbn [length]; lia.
Qed.

Lemma crop_rows_run advisor inp indices : forall predictions p,
  exists new p' evs,
    crop_rows advisor inp indices predictions p = (Ok (predictions ++ new), p')
    /\ Forall2 (of_row inp) new (List.filter (named inp) indices)
    /\ yield_advisor p' = yield_advisor p
    /\ num_crops p' = num_crops p
    /\ total_income_value p' = total_income_value p
    /\ screen p' = screen p ++ (row_spinner inp <$> List.filter (named inp) indices)
    /\ trace (session p') = trace (session p) ++ evs
    /\ length (model_calls evs) <= length new.
Proof.
  induction indices as [|i rest IH]; intros predictions p.
  - exists [], p, []. cbn. rewrite !app_nil_r. repeat split; done.
  - cbn [crop_rows List.filter].
    assert (Py.is_empty (Py.lower (Py.strip (crop_input inp i)))
            = negb (named inp i)) as Hnamed.
    { unfold named. by rewrite negb_involutive. }
    rewrite Hnamed. fold (row_name inp i).
    destruct (named inp i) eqn:Ename; cbn [negb]; [|apply IH].
    + assert (row_name inp i <> "") as Hne.
      { intros Heq. unfold named in Ename. fold (row_name inp i) in Ename.
        by rewrite Heq in Ename. }
      unfold bind at 1, show at 1. cbn [fst snd]. unfold bind at 1, in_session at 1.
      cbn [session yield_advisor num_crops total_income_value screen].
      destruct (get_yield_prediction_call advisor (row_name inp i)
                  (acres_input inp i) (session p) Hne)
        as (d & w' & evs & Hrun & Hcrop & Hacres & Hprod & Ht & Hcalls).
      rewrite Hrun. cbn [fst snd].
      assert (truthy (Some d) = true) as ->.
      { destruct Hprod as [(?&?&?&?& ->)|(?&?&?& ->)]; reflexivity. }
      match goal with |- context [crop_rows advisor inp rest ?acc ?q] =>
        destruct (IH acc q) as (new & p' & evs' & Hrest & Hrows & Ha & Hn & Hi & Hs & Ht' & Hc')
      end.
      cbn [session yield_advisor num_crops total_income_value screen] in *.
      exists (d :: new), p', (evs ++ evs'). rewrite Hrest.
      repeat split; try done.
      * by rewrite <- app_assoc.
      * constructor; [|done]. rewrite row_name_normal in Hcrop. by repeat split.
      * rewrite Hs. cbn [fmap list_fmap]. by rewrite <- app_assoc.
      * rewrite Ht', Ht. by rewrite app_assoc.
      * rewrite model_calls_app, length_app. cbn [length]. lia.
Qed.

(** X18. The rows of the form give one prediction for each row that
    has a crop name, in the order of the rows, for that row's name in
    lower case and stripped and for its acreage, full or with an error;
    a row without a name gives none and asks nothing. The model is
    sent at most one prompt per prediction, and the page gets one
    spinner per prediction and nothing else. *)
Theorem one_prediction_per_named_row advisor inp indices p :
  exists predictions p' evs,
    crop_rows advisor inp indices [] p = (Ok predictions, p')
    /\ Forall2 (of_row inp) predictions (List.filter (named inp) indices)
    /\ screen p' = screen p ++ (row_spinner inp <$> List.filter (named inp) indices)
    /\ trace (session p') = trace (session p) ++ evs
    /\ length (model_calls evs) <= length predictions
    /\ length predictions <= length indices.
Proof.
  destruct (crop_rows_run advisor inp indices [] p)
    as (new & p' & evs & Hrun & Hrows & _ & _ & _ & Hs & Ht & Hc).
  exists new, p', evs. repeat split; try done.
  rewrite (Forall2_length _ _ _ Hrows). apply filter_at_most.
Qed.

Lemma collect_predictions_run inp p :
  exists predictions p',
    collect_predictions inp p = (Ok predictions, p')
    /\ num_crops p'
       = Some (buttons (add_clicked inp) (remove_clicked inp)
                 (default 1%Z (num_crops p)))
    /\ total_income_value p' = total_income_value p
    /\ length predictions
       <= Z.to_nat (buttons (add_clicked inp) (remove_clicked inp)
                      (default 1%Z (num_crops p))).
Proof.
  unfold collect_predictions.
  set (n := buttons _ _ (default 1%Z (num_crops p))).
  assert (forall a q,
            num_crops q = Some n -> total_income_value q = total_income_value p ->
            exists predictions p',
              crop_rows a inp (seq 0 (Z.to_nat n)) [] q = (Ok predictions, p')
              /\ num_crops p' = Some n
              /\ total_income_value p' = total_income_value p
              /\ length predictions <= Z.to_nat n) as Hrows.
  { intros a q Hq Hi.
    destruct (crop_rows_run a inp (seq 0 (Z.to_nat n)) [] q)
      as (new & p' & evs & Hrun & Hrows & _ & Hn & Hi' & _).
    exists new, p'. rewrite Hrun. repeat split; try congruence.
    rewrite (Forall2_length _ _ _ Hrows).
    etrans; [apply filter_at_most|]. by rewrite length_seq. }
  unfold bind at 1.
  destruct (yield_advisor p) as [a|] eqn:Ea.
  - unfold ret at 1. cbn [fst snd]. unfold bind at 1.
    destruct (num_crops p) as [n0|] eqn:En; subst n; cbn [default from_option id].
    + unfold ret at 1. cbn [fst snd]. unfold bind, set_num_crops. cbn [fst snd].
      by apply Hrows.
    + unfold bind, set_num_crops, ret. cbn [fst snd]. by apply Hrows.
  - unfold bind at 1, in_session.
    pose proof (new_YieldAdvisorLLM_value (session p)) as Hnew.
    destruct (new_YieldAdvisorLLM (session p)) as [r w]. cbn [fst snd] in *. subst r.
    unfold bind at 1, set_yield_advisor, ret at 1. cbn [fst snd].
    cbn [session yield_advisor num_crops total_income_value screen].
    unfold bind at 1. cbn [num_crops].
    destruct (num_crops p) as [n0|] eqn:En; subst n; cbn [default from_option id].
    + unfold ret at 1. cbn [fst snd]. unfold bind, set_num_crops. cbn [fst snd].
      by apply Hrows.
    + unfold bind, set_num_crops, ret. cbn [fst snd]. by apply Hrows.
Qed.

Lemma on_submit_keeps submitted predictions p :
  session (on_submit submitted predictions p).2 = session p
  /\ yield_advisor (on_submit submitted predictions p).2 = yield_advisor p
  /\ num_crops (on_submit submitted predictions p).2 = num_crops p.
Proof.
  unfold on_submit. destruct submitted; [|done].
  destruct predictions as [|d rest]; [done|].
  unfold bind, lift, set_total_income_value, ret.
  destruct (display_predictions_page_only (d :: rest) p) as (Hs & Ha & Hn & _).
  pose proof (display_predictions_returns (d :: rest) p) as Hok.
  destruct (display_predictions (d :: rest) p) as [r p1]. cbn [fst snd] in *. subst r.
  destruct (forallb _ _); [|done].
  destruct (sum_of _ _); cbn [fst snd session yield_advisor num_crops]; done.
Qed.

Lemma buttons_range add remove n :
  (1 <= n <= 5)%Z ->
  (1 <= buttons add remove n <= 5)%Z
  /\ (Z.abs (buttons add remove n - n) <= 1)%Z.
Proof.
  intros Hn. unfold buttons.
  destruct add, remove; cbn [andb]; try destruct (Z.ltb_spec 1 (Z.min 5 (n + 1)));
    try destruct (Z.ltb_spec 1 n); lia.
Qed.

(** X19. The number of crop rows stays between one and five. From a
    session without the key, or with a number in that range, a pass of
    the tab leaves a number in that range, at most one away from what
    it was, whatever is clicked; so a pass has at most five rows and
    makes at most five predictions. *)
Theorem num_crops_in_range inp p :
  (forall n, num_crops p = Some n -> (1 <= n <= 5)%Z) ->
  exists n',
    num_crops (render_yield_advisor_tab inp p).2 = Some n'
    /\ (1 <= n' <= 5)%Z
    /\ (Z.abs (n' - default 1%Z (num_crops p)) <= 1)%Z
    /\ exists predictions p1,
         collect_predictions inp p = (Ok predictions, p1)
         /\ length predictions <= 5.
Proof.
  intros Hrange.
  assert (1 <= default 1%Z (num_crops p) <= 5)%Z as Hn.
  { destruct (num_crops p) as [n|]; cbn; [by apply Hrange|lia]. }
  destruct (buttons_range (add_clicked inp) (remove_clicked inp) _ Hn) as [Hb Hstep].
  destruct (collect_predictions_run inp p) as (predictions & p1 & Hrun & Hnum & _ & Hlen).
  exists (buttons (add_clicked inp) (remove_clicked inp) (default 1%Z (num_crops p))).
  unfold render_yield_advisor_tab, bind. rewrite Hrun.
  destruct (on_submit_keeps (submit_button inp) predictions p1) as (_ & _ & ->).
  repeat split; try done; try lia.
  exists predictions, p1. split; [done|]. lia.
Qed.

Lemma crop_rows_with_submit b advisor inp indices : forall predictions p,
  crop_rows advisor (with_submit b inp) indices predictions p
  = crop_rows advisor inp indices predictions p.
Proof.
  induction indices as [|i rest IH]; intros predictions p; [done|].
  cbn [crop_rows with_submit crop_input acres_input].
  destruct (Py.is_empty _); [apply IH|].
  unfold bind, show, in_session. cbn [fst snd session].
  destruct (get_yield_prediction _ _ _ _) as [[prediction|msg] w]; [|done].
  destruct (truthy prediction); apply IH.
Qed.

Lemma collect_predictions_with_submit b inp p :
  collect_predictions (with_submit b inp) p = collect_predictions inp p.
Proof.
  unfold collect_predictions, bind.
  cbn [with_submit add_clicked remove_clicked].
  destruct (yield_advisor p) as [a|].
  - unfold ret at 1 4. cbn [fst snd].
    destruct (num_crops p) as [n|]; unfold ret, set_num_crops; cbn [fst snd];
      apply crop_rows_with_submit.
  - unfold in_session, set_yield_advisor.
    destruct (new_YieldAdvisorLLM (session p)) as [[a|msg] w]; [|done].
    unfold ret. cbn [fst snd num_crops].
    destruct (num_crops p) as [n|]; unfold set_num_crops; cbn [fst snd];
      apply crop_rows_with_submit.
Qed.

(** X20. Submitting decides what is shown, not what is computed: the
    predictions are made, and the model is asked, on every pass of the
    tab. With the same session and the same inputs, the pass with the
    form submitted and the pass without leave the same trace of the
    model, the same advisor and the same number of crops; and without
    a submission the income kept for the dashboard stays as it was. *)
Theorem predictions_made_on_every_pass b inp p :
  session (render_yield_advisor_tab (with_submit b inp) p).2
  = session (render_yield_advisor_tab inp p).2
  /\ yield_advisor (render_yield_advisor_tab (with_submit b inp) p).2
     = yield_advisor (render_yield_advisor_tab inp p).2
  /\ num_crops (render_yield_advisor_tab (with_submit b inp) p).2
     = num_crops (render_yield_advisor_tab inp p).2
  /\ total_income_value (render_yield_advisor_tab (with_submit false inp) p).2
     = total_income_value p.
Proof.
  unfold render_yield_advisor_tab, bind.
  rewrite !collect_predictions_with_submit.
  destruct (collect_predictions_run inp p) as (predictions & p1 & -> & _ & Hi & _).
  cbn [with_submit submit_button].
  destruct (on_submit_keeps b predictions p1) as (-> & -> & ->).
  destruct (on_submit_keeps (submit_button inp) predictions p1) as (-> & -> & ->).
  repeat split; try done.
Qed.

End TabRuns.

(** ** The further properties on concrete inputs *)

Section FurtherEvaluations.

Import Yield Reading YieldTab TabProps TabSamples Samples.
Local Open Scope float_scope.

Lemma failed_load_not_retried_witness :
  session_llm no_model = Some None
  /\ "rice" <> ""
  /\ get_yield_prediction (H := Decimal.runtime) advisor "rice" 2 no_model
     = (Ok (Some (error_dict "rice" 2 "Could not determine price")),
        {| session_llm := Some None; loader := loader no_model;
           trace := [Enter_get_price_from_llm "rice"] |}).
Proof.
  split; [reflexivity|]. split; [discriminate|].
  exact (proj2 (proj2 (failed_load_not_retried (H := Decimal.runtime) advisor
                         "rice" 2 no_model eq_refl ltac:(discriminate)))).
Defined.

Lemma constructed_advisor_errors_witness :
  "wheat" <> ""
  /\ exists self w1 d,
       new_YieldAdvisorLLM no_model = (Ok self, w1)
       /\ (get_yield_prediction (H := Decimal.runtime) self "wheat" 3 w1).1
          = Ok (Some d)
       /\ (complete_prediction d
           \/ d = error_dict (normalize "wheat") 3 "Could not determine price"
           \/ d = error_dict (normalize "wheat") 3
                    "Could not determine yield or price").
Proof.
  split; [discriminate|].
  apply (constructed_advisor_errors (H := Decimal.runtime) no_model "wheat" 3).
  discriminate.
Defined.

Lemma model_failure_degrades_witness :
  "rice" <> ""
  /\ (get_yield_prediction (H := Decimal.runtime) advisor "rice" 2
        failing_model).1
     = Ok (Some (error_dict "rice" 2 "Could not determine price")).
Proof.
  split; [discriminate|].
  rewrite (model_failure_degrades (H := Decimal.runtime) advisor "rice" 2
             failing_model _ "out of memory" ltac:(discriminate) eq_refl
             ltac:(reflexivity)).
  vm_compute. reflexivity.
Defined.

Lemma known_crop_prediction_witness :
  static_yields advisor !! normalize " Rice " = Some (per_acre 2873)
  /\ search_price (Py.strip " Price: 22") = Some "22"
  /\ Decimal.float_of_decimal "22" = Ok 22
  /\ (get_yield_prediction (H := Decimal.runtime) advisor " Rice " 2
        (answering " Price: 22")).1
     = Ok (Some (prediction_dict "rice" 2 (per_acre 2873) 22)).
Proof.
  assert (static_yields advisor !! normalize " Rice " = Some (per_acre 2873))
    as Hy by (vm_compute; reflexivity).
  assert (Decimal.float_of_decimal "22" = Ok 22) as Hp by (vm_compute; reflexivity).
  split; [exact Hy|]. split; [reflexivity|]. split; [exact Hp|].
  rewrite (proj1 (known_crop_prediction (H := Decimal.runtime) advisor " Rice " 2
                    (answering " Price: 22") _ " Price: 22" "22" 22 _
                    ltac:(discriminate) Hy eq_refl eq_refl eq_refl Hp)).
  reflexivity.
Defined.

Lemma unknown_crop_prediction_witness :
  static_yields advisor !! normalize "quinoa" = None
  /\ (get_yield_prediction (H := Decimal.runtime) advisor "quinoa" 2
        (answering "Yield: 800
Price: 90")).1
     = Ok (Some (prediction_dict "quinoa" 2 800 90)).
Proof.
  assert (static_yields advisor !! normalize "quinoa" = None) as Hy
    by (vm_compute; reflexivity).
  split; [exact Hy|].
  rewrite (proj1 (unknown_crop_prediction (H := Decimal.runtime) advisor "quinoa" 2
                    (answering "Yield: 800
Price: 90") _ "Yield: 800
Price: 90" 800 90 ltac:(discriminate) Hy eq_refl eq_refl
                    ltac:(vm_compute; reflexivity))).
  reflexivity.
Defined.

Lemma normalized_name_same_run_witness :
  normalize " Rice " <> ""
  /\ get_yield_prediction (H := Decimal.runtime) advisor " Rice " 2
       (answering "Price: 22")
     = get_yield_prediction (H := Decimal.runtime) advisor (normalize " Rice ") 2
         (answering "Price: 22").
Proof.
  split; [discriminate|].
  apply (normalized_name_same_run (H := Decimal.runtime)). discriminate.
Defined.


Lemma unreadable_line_voids_both_witness :
  Exists (unreadable (H := Decimal.runtime)) ["Yield: 100"; "Price: n/a"]
  /\ exists msg,
       parse_response (H := Decimal.runtime) "Yield: 100
Price: n/a" (answering "")
       = (Ok (None, None),
          {| session_llm := session_llm (answering "");
             loader := loader (answering "");
             trace := [St_warning ("Error parsing response: " ++ msg)%string] |}).
Proof.
  assert (Exists (unreadable (H := Decimal.runtime)) ["Yield: 100"; "Price: n/a"])
    as Hbad.
  { apply Exists_cons_tl, Exists_cons_hd. split; [reflexivity|].
    eexists. vm_compute. reflexivity. }
  split; [exact Hbad|].
  exact (proj1 (unreadable_line_voids_both (H := Decimal.runtime) "Yield: 100
Price: n/a" (answering "")) Hbad).
Defined.

Lemma last_labelled_line_wins_witness :
  parse_lines (H := Decimal.runtime) ["Yield: 1"; "Price: 5"] None None
  = Ok (Some 1, Some 5)
  /\ labelled "Yield: 2" = true
  /\ Decimal.float_of_decimal (payload "Yield: 2") = Ok 2
  /\ parse_lines (H := Decimal.runtime) ["Yield: 1"; "Price: 5"; "Yield: 2"]
       None None
     = Ok (Some 2, Some 5).
Proof.
  assert (parse_lines (H := Decimal.runtime) ["Yield: 1"; "Price: 5"] None None
          = Ok (Some 1, Some 5)) as Hfirst by (vm_compute; reflexivity).
  assert (Decimal.float_of_decimal (payload "Yield: 2") = Ok 2) as Hv
    by (vm_compute; reflexivity).
  split; [exact Hfirst|]. split; [reflexivity|]. split; [exact Hv|].
  exact (last_labelled_line_wins (H := Decimal.runtime) ["Yield: 1"; "Price: 5"]
           "Yield: 2" _ _ _ Hfirst eq_refl Hv).
Defined.

Lemma valid_row_is_stored_witness :
  0 < 5
  /\ Dashboard.name (one_row 0) <> ""
  /\ (0 <? Dashboard.row_amount (one_row 0)) = true
  /\ seeds_entry ∈ (Dashboard.expense_form one_row noon true []).1.
Proof.
  split; [lia|]. split; [discriminate|]. split; [reflexivity|].
  apply (valid_row_is_stored one_row noon [] 0); [lia|discriminate|reflexivity].
Defined.

Lemma category_list_invariant_witness :
  Categories.reachable (Categories.default_categories ++ ["Rent"])
  /\ NoDup (Categories.options (Categories.default_categories ++ ["Rent"])).
Proof.
  assert (Categories.reachable (Categories.default_categories ++ ["Rent"]))
    as Hreach.
  { exact (Categories.reach_add "Rent" Categories.default_categories
             (Categories.reach_initial _ eq_refl)). }
  split; [exact Hreach|]. exact (proj1 (category_list_invariant _ Hreach)).
Defined.

Lemma failed_prediction_hides_results_witness :
  some_error mixed_predictions
  /\ on_submit true mixed_predictions five_rows
     = (Ok tt,
        {| session := session five_rows;
           yield_advisor := None;
           num_crops := Some 5%Z;
           total_income_value := Some 0;
           screen := [ Show_subheader "Yield Predictions";
                       Show_warning "Some predictions could not be calculated" ] |}).
Proof.
  assert (some_error mixed_predictions) as Herr.
  { exists "quinoa", 1, "Could not determine yield or price"%string.
    apply elem_of_cons. right. apply elem_of_cons. by left. }
  split; [exact Herr|].
  exact (failed_prediction_hides_results mixed_predictions five_rows Herr).
Defined.

Lemma full_predictions_shown_witness :
  [rice_harvest] <> []
  /\ total_income_value
       (on_submit true (prediction_of <$> [rice_harvest]) five_rows).2
     = Some (2 * 1162.5 * 22).
Proof.
  split; [discriminate|].
  rewrite (full_predictions_shown [rice_harvest] five_rows ltac:(discriminate)).
  vm_compute. reflexivity.
Defined.

Lemma num_crops_in_range_witness :
  (forall n, num_crops five_rows = Some n -> (1 <= n <= 5)%Z)
  /\ exists n',
       num_crops (render_yield_advisor_tab (H := Decimal.runtime) rice_form
                    five_rows).2 = Some n'
       /\ (1 <= n' <= 5)%Z.
Proof.
  assert (forall n, num_crops five_rows = Some n -> (1 <= n <= 5)%Z) as Hrange.
  { intros n [= <-]. lia. }
  split; [exact Hrange|].
  destruct (num_crops_in_range (H := Decimal.runtime) rice_form five_rows Hrange)
    as (n' & Hn & Hr & _).
  by exists n'.
Defined.

(** A pass of the tab on the sample page: one prediction for rice, the
    income is kept for the dashboard. *)
Example rice_pass :
  total_income_value
    (render_yield_advisor_tab (H := Decimal.runtime) rice_form five_rows).2
  = Some (2 * (2873 / 2.47105) * 22)
  /\ length (screen (render_yield_advisor_tab (H := Decimal.runtime) rice_form
                       five_rows).2) = 7%nat.
Proof. split; vm_compute; reflexivity. Qed.

End FurtherEvaluations.
